(** * BatchRendererFactory: a shallow embedding

    Source: [packages/core/src/batch/BatchRendererFactory.js].

    The factory builds renderer plugins: [create(options)] merges the
    options over four defaults, declares a constructor [BatchPlugin] that
    closes over the merged values, points its [prototype] at
    [BaseBatchRenderer.prototype] and returns it.

    JavaScript objects live in a heap of locations; properties are a finite
    map from names to property descriptors; calls thread the heap through a
    small state-and-exception monad. *)

From Stdlib Require Import ZArith Strings.String Strings.Ascii Numbers.DecimalString.
From stdpp Require Import base option list gmap strings fin_maps.

(** ** Strings and the shader template expander *)

Module Template.

(** The two placeholder tokens of a fragment template, as they appear in
    the example template of the factory's documentation
    ([uSamplers[%count%]] and [%forloop%]). *)
Definition COUNT : string := "%count%".
Definition FORLOOP : string := "%forloop%".

(** [drop n s]: [s] without its first [n] characters. *)
Fixpoint drop (n : nat) (s : string) : string :=
  match n, s with
  | 0, _ => s
  | S _, EmptyString => EmptyString
  | S n', String _ s' => drop n' s'
  end.

(** [occurrences tok s]: the number of positions of [s] at which [tok]
    starts (overlapping occurrences are all counted). *)
Fixpoint occurrences (tok s : string) : nat :=
  (if String.prefix tok s then 1 else 0) +
  match s with
  | EmptyString => 0
  | String _ s' => occurrences tok s'
  end.

(** [replace_first tok rep s]: [s] with the leftmost occurrence of [tok]
    replaced by [rep]; [None] when [tok] does not occur. *)
Fixpoint replace_first (tok rep s : string) : option string :=
  if String.prefix tok s then Some (rep +:+ drop (String.length tok) s)
  else match s with
       | EmptyString => None
       | String c s' => String c <$> replace_first tok rep s'
       end.

(** The decimal literal of a texture-unit count. *)
Definition decimal (k : nat) : string :=
  NilZero.string_of_uint (Nat.to_uint k).

(** The loop of the expander: the blocks of units [i], [i+1], ...,
    [i+n-1] appended in that order. *)
Fixpoint blocks_from (unit_block : nat -> string) (i n : nat) : string :=
  match n with
  | 0 => EmptyString
  | S n' => unit_block i +:+ blocks_from unit_block (S i) n'
  end.

Inductive error :=
| TypeError (msg : string)
| ConfigurationError (msg : string).

(** Modelled from the spec: the Shader Program Template Expander
    ([./BatchShaderGenerator], imported by the factory but not part of the
    file). [expand] substitutes the decimal literal of [maxTextureUnits]
    for the count placeholder, then [maxTextureUnits] copies of the
    per-unit conditional block for the loop placeholder; a template that
    lacks either placeholder is a configuration error. The text of the
    per-unit block is not fixed by the spec and is a parameter. *)
Definition expand (unit_block : nat -> string)
           (fragmentTemplate : string) (maxTextureUnits : nat)
  : error + string :=
  match replace_first COUNT (decimal maxTextureUnits) fragmentTemplate with
  | None => inl (ConfigurationError "missing %count%")
  | Some withCount =>
      match replace_first FORLOOP
              (blocks_from unit_block 0 maxTextureUnits) withCount with
      | None => inl (ConfigurationError "missing %forloop%")
      | Some src => inr src
      end
  end.

(** Where the two placeholders stand in a template: [x] is put in the
    place of the count placeholder and [y] in the place of the loop
    placeholder, in either order, between the texts [a], [b] and [c]. *)
Definition fill (count_first : bool) (a b c x y : string) : string :=
  if count_first then a +:+ x +:+ b +:+ y +:+ c
  else a +:+ y +:+ b +:+ x +:+ c.

Definition join (l : list string) : string := foldr String.append "" l.

Definition is_digit (c : ascii) : bool :=
  (48 <=? nat_of_ascii c)%nat && (nat_of_ascii c <=? 57)%nat.

Fixpoint all_chars (P : ascii -> bool) (s : string) : bool :=
  match s with
  | EmptyString => true
  | String c s' => P c && all_chars P s'
  end.

(** A template has its two placeholders when each of the two tokens
    occurs in it. *)
Definition has_placeholders (t : string) : bool :=
  negb (occurrences COUNT t =? 0)%nat && negb (occurrences FORLOOP t =? 0)%nat.

(** A per-unit block in the manner of the spec's example
    (if selected-unit == i then sample sampler[i]). *)
Definition sample_block (i : nat) : string :=
  "if(vTextureId == " +:+ decimal i +:+ ".0) color = texture2D(uSamplers["
    +:+ decimal i +:+ "], vTextureCoord);".

End Template.

(** ** The batch renderer engine *)

Module Engine.

(** A drawable as the engine reads it: the identifier of its texture, the
    number of vertices it appends to the shared buffer, its tint and its
    blend mode. *)
Record Drawable := {
  texture : nat;
  vertexCount : nat;
  tint : Z;
  blendMode : nat
}.

(** A batch descriptor: a contiguous sub-range of the accumulated
    objects, the slot table bound for the draw call and the blend mode. *)
Record BatchDescriptor := {
  objects : list Drawable;
  boundSlots : gmap nat nat;
  blend : nat
}.

(** The graphics device handle as far as the engine consumes it. *)
Record Device := {
  dev_maxTextureUnits : nat;
  dev_bufferCapacity : nat
}.

(** Per-instance state: the texture unit slot table (texture identifier
    to slot index), the write position of the shared geometry buffer, the
    objects accumulated since the last flush, each with its assigned
    slot, and the draw calls issued so far in emission order. *)
Record State := {
  maxTextureUnits : nat;
  capacity : nat;
  slotTable : gmap nat nat;
  writePos : nat;
  accumulated : list (Drawable * nat);
  drawCalls : list BatchDescriptor
}.

(** Modelled from the spec: the state [BaseBatchRenderer]
    ([./BatchRenderer], imported by the factory but not part of the file)
    sets up for a device: the unit count queried from the device, an
    empty slot table and buffer, nothing accumulated or drawn. *)
Definition init (d : Device) : State :=
  {| maxTextureUnits := dev_maxTextureUnits d;
     capacity := dev_bufferCapacity d;
     slotTable := ∅;
     writePos := 0;
     accumulated := [];
     drawCalls := [] |}.

(** The accumulated objects cut at every change of blend mode: [run] is
    the run being grown (in reverse), [b] its blend mode. *)
Fixpoint split_runs (b : nat) (run : list Drawable)
         (l : list (Drawable * nat)) : list (list Drawable) :=
  match l with
  | [] => [rev run]
  | (d, _) :: l' =>
      if Nat.eqb (blendMode d) b then split_runs b (d :: run) l'
      else rev run :: split_runs (blendMode d) [d] l'
  end.

Definition descriptors (slots : gmap nat nat)
           (l : list (Drawable * nat)) : list BatchDescriptor :=
  match l with
  | [] => []
  | (d, _) :: l' =>
      (fun run => {| objects := run; boundSlots := slots;
                     blend := from_option blendMode 0 (head run) |})
        <$> split_runs (blendMode d) [d] l'
  end.

(** Modelled from the spec: [flush()]. The accumulated objects are
    emitted as batch descriptors, one for each run of equal blend mode, and
    the slot table, the write position and the accumulation are reset; with
    nothing accumulated no draw call is issued. *)
Definition flush (s : State) : State :=
  {| maxTextureUnits := maxTextureUnits s;
     capacity := capacity s;
     slotTable := ∅;
     writePos := 0;
     accumulated := [];
     drawCalls := drawCalls s ++ descriptors (slotTable s) (accumulated s) |}.

(** A flush is forced when the texture is new and the slot table is full,
    or when the vertices would not fit the rest of the buffer. *)
Definition must_flush (d : Drawable) (s : State) : bool :=
  (bool_decide (slotTable s !! texture d = None)
     && (maxTextureUnits s <=? size (slotTable s))%nat)
  || (capacity s <? writePos s + vertexCount d)%nat.

(** Slot assignment and append: a texture of the table keeps its slot, a
    new one takes the next free slot. *)
Definition accumulate (d : Drawable) (s : State) : State :=
  let slot := default (size (slotTable s)) (slotTable s !! texture d) in
  {| maxTextureUnits := maxTextureUnits s;
     capacity := capacity s;
     slotTable := <[texture d := slot]> (slotTable s);
     writePos := writePos s + vertexCount d;
     accumulated := accumulated s ++ [(d, slot)];
     drawCalls := drawCalls s |}.

(** Modelled from the spec: [render(drawable)], called once for each
    drawable in draw order. *)
Definition render (d : Drawable) (s : State) : State :=
  accumulate d (if must_flush d s then flush s else s).

(** A render pass: every drawable in order, then the closing flush. *)
Definition render_pass (ds : list Drawable) (s : State) : State :=
  flush (foldl (fun s d => render d s) s ds).

(** The object ranges of the emitted descriptors, joined in emission
    order. *)
Definition drawn (s : State) : list Drawable :=
  concat (objects <$> drawCalls s).

(** Everything the engine was given so far: what it has drawn, then what
    it still accumulates. *)
Definition seen (s : State) : list Drawable :=
  drawn s ++ (fst <$> accumulated s).

(** A quad of texture [t] and blend mode [b]. *)
Definition quad (t b : nat) : Drawable :=
  {| texture := t; vertexCount := 4; tint := 0; blendMode := b |}.

End Engine.

(** ** JavaScript values, objects and the heap *)

Module Js.

Definition loc := nat.

(** Values. Numbers are the integers the factory handles ([vertexSize]). *)
Inductive value :=
| VUndefined
| VNull
| VBool (b : bool)
| VNum (n : Z)
| VStr (s : string)
| VRef (l : loc).

(** The getters the file declares, and its setters: there are none. *)
Inductive getter := GetDefaultVertexSrc | GetDefaultFragmentTemplate.
Inductive setter := .

Inductive property :=
| Data (v : value)
| Accessor (get : option getter) (set : option setter).

(** The code of a function object. [CBatchPlugin] is the closure that
    [create] declares, with the four captured constants. *)
Inductive code :=
| CCreate
| CClass (name : string)
| CBatchPlugin (vertex fragment vertexSize geometryClass : value).

(** What an object is besides its properties. *)
Inductive internal :=
| IsPlain
| IsFunction (c : code)
| IsGeometryClass (layout : list (string * nat))
| IsShaderGenerator (vertexSrc fragTemplate : value)
| IsEngine (s : Engine.State)
| IsDevice (d : Engine.Device).

Record object := {
  proto : value;
  props : gmap string property;
  slot : internal
}.

Definition with_props (f : gmap string property -> gmap string property)
           (o : object) : object :=
  {| proto := proto o; props := f (props o); slot := slot o |}.

Definition with_slot (i : internal) (o : object) : object :=
  {| proto := proto o; props := props o; slot := i |}.

Abbreviation heap := (gmap loc object).

(** A computation returns a value or throws, and leaves a heap either
    way. *)
Inductive outcome (A : Type) :=
| Return (a : A) (h : heap)
| Throw (e : Template.error) (h : heap).
Arguments Return {A} a h.
Arguments Throw {A} e h.

Definition M (A : Type) : Type := heap -> outcome A.

#[global] Instance M_ret : MRet M := fun A a h => Return a h.
#[global] Instance M_bind : MBind M := fun A B f m h =>
  match m h with
  | Return a h' => f a h'
  | Throw e h' => Throw e h'
  end.

Definition throw {A : Type} (e : Template.error) : M A := fun h => Throw e h.

(** Allocation at a location the heap does not use. *)
Definition alloc (o : object) : M loc := fun h =>
  let l := fresh (dom h) in Return l (<[l := o]> h).

(** The property [k] of [v], own or inherited along the prototype chain;
    [fuel] bounds the length of the chain. *)
Fixpoint find_property (fuel : nat) (h : heap) (v : value) (k : string)
  : option property :=
  match fuel, v with
  | S fuel', VRef l =>
      match h !! l with
      | Some o =>
          match props o !! k with
          | Some p => Some p
          | None => find_property fuel' h (proto o) k
          end
      | None => None
      end
  | _, _ => None
  end.

(** The layout of a geometry class in 32-bit words for each attribute, and
    its stride. *)
Definition stride (layout : list (string * nat)) : nat :=
  foldr (fun a n => a.2 + n) 0 layout.

(** Modelled from the spec: the standard Geometry Buffer Layout of
    [./BatchGeometry] (not part of the file): position and UV of two
    floats each, a packed color and the texture-unit index. *)
Definition standard_layout : list (string * nat) :=
  [("position", 2); ("uv", 2); ("color", 1); ("textureId", 1)].

End Js.

(** ** The factory *)

Module Factory.
Import Js.

(** The bindings the file imports. The two shader sources are the
    contents of [./texture.vert] and [./texture.frag]; the built-in
    fragment source is a template, with its two placeholders. The two
    classes are the locations of their function objects. Of the base class,
    whose code is not part of the file, [base_fields] stands for the own
    properties its constructor gives an instance for a renderer. *)
Class Imports := {
  defaultVertex : string;
  defaultFragment : string;
  BatchGeometry : loc;
  BaseBatchRenderer : loc;
  base_fields : value -> gmap string value;
  defaultFragment_template : Template.has_placeholders defaultFragment = true
}.

(** The fragment sources a shader generator accepts: strings with the
    two placeholders. *)
Definition accepts_template (fragment : value) : bool :=
  match fragment with
  | VStr t => Template.has_placeholders t
  | _ => false
  end.

(** The resolved configuration a constructor closes over. *)
Record Config := {
  cfg_vertex : value;
  cfg_fragment : value;
  cfg_vertexSize : value;
  cfg_geometryClass : value
}.

Section Code.
Context `{!Imports}.

(** [static get defaultVertexSrc()] and
    [static get defaultFragmentTemplate()]. *)
Definition call_getter (g : getter) : value :=
  match g with
  | GetDefaultVertexSrc => VStr defaultVertex
  | GetDefaultFragmentTemplate => VStr defaultFragment
  end.

(** Property read [v.k]. *)
Definition get_prop (v : value) (k : string) : M value := fun h =>
  match v with
  | VUndefined | VNull =>
      Throw (Template.TypeError "cannot read properties of undefined") h
  | _ =>
      match find_property (S (size h)) h v k with
      | Some (Data x) => Return x h
      | Some (Accessor (Some g) _) => Return (call_getter g) h
      | Some (Accessor None _) | None => Return VUndefined h
      end
  end.

(** Property write [l.k = v] in strict code: an accessor without a
    setter, own or inherited, rejects the write; otherwise [k] becomes
    an own data property of [l]. The name [__proto__], which on an object
    that inherits the accessor of [Object.prototype] changes the prototype
    instead, is not told apart from the other names; the statements about
    writes under an arbitrary name leave it out. *)
Definition set_prop (l : loc) (k : string) (v : value) : M unit := fun h =>
  match h !! l with
  | None => Throw (Template.TypeError "cannot set properties of undefined") h
  | Some o =>
      match find_property (S (size h)) h (VRef l) k with
      | Some (Accessor _ None) =>
          Throw (Template.TypeError "cannot set property which has only a getter") h
      | Some (Accessor _ (Some s)) => match s with end
      | Some (Data _) | None =>
          Return () (<[l := with_props (insert k (Data v)) o]> h)
      end
  end.

(** The literal first argument of [Object.assign] in [create]. *)
Definition defaults : gmap string value :=
  {[ "vertex" := VStr defaultVertex;
     "fragment" := VStr defaultFragment;
     "geometryClass" := VRef BatchGeometry;
     "vertexSize" := VNum 6 ]}.

(** [Object.assign(target, source)] on the own enumerable properties:
    an [undefined] (or [null]) source is [None] and is skipped, and every
    key of an object source, whatever its value, overwrites the key of the
    target. *)
Definition object_assign (target : gmap string value)
           (source : option (gmap string value)) : gmap string value :=
  match source with
  | None => target
  | Some src => src ∪ target
  end.

(** Destructuring read of one key. *)
Definition field (o : gmap string value) (k : string) : value :=
  default VUndefined (o !! k).

(** [const { vertex, fragment, vertexSize, geometryClass } =
     Object.assign({ ... }, options)]. *)
Definition resolve (options : option (gmap string value)) : Config :=
  let merged := object_assign defaults options in
  {| cfg_vertex := field merged "vertex";
     cfg_fragment := field merged "fragment";
     cfg_vertexSize := field merged "vertexSize";
     cfg_geometryClass := field merged "geometryClass" |}.

(** A function declaration: the function object and the fresh object
    its [prototype] property starts with. *)
Definition declare_function (c : code) : M loc :=
  f ← alloc {| proto := VNull; props := ∅; slot := IsFunction c |};
  p ← alloc {| proto := VNull;
               props := {[ "constructor" := Data (VRef f) ]};
               slot := IsPlain |};
  set_prop f "prototype" (VRef p);;
  mret f.

(** Modelled from the spec: [BaseBatchRenderer.call(this, renderer)]
    ([./BatchRenderer] is not part of the file). The base constructor
    queries the device handle, sets up the engine state of [this] and
    gives [this] its own properties, [base_fields renderer]; anything but a
    device handle is a type error. *)
Definition BaseBatchRenderer_call (this : loc) (renderer : value) : M unit :=
  fun h =>
    match renderer with
    | VRef r =>
        match slot <$> h !! r, h !! this with
        | Some (IsDevice d), Some o =>
            Return () (<[this := {| proto := proto o;
                                    props := (Data <$> base_fields renderer)
                                               ∪ props o;
                                    slot := IsEngine (Engine.init d) |}]> h)
        | _, _ => Throw (Template.TypeError "renderer is not a device") h
        end
    | _ => Throw (Template.TypeError "renderer is not a device") h
    end.

(** Modelled from the spec: [new BatchShaderGenerator(vertex, fragment)]
    ([./BatchShaderGenerator] is not part of the file). A fragment source
    that is not a string, or a template in which a placeholder token is
    absent, is an error raised here, at construction; otherwise the result
    is an object that keeps the two sources as they are given. *)
Definition new_BatchShaderGenerator (vertex fragment : value) : M loc :=
  match fragment with
  | VStr t =>
      if (Template.occurrences Template.COUNT t =? 0)%nat
      then throw (Template.ConfigurationError
                    "Fragment template must contain %count%")
      else if (Template.occurrences Template.FORLOOP t =? 0)%nat
      then throw (Template.ConfigurationError
                    "Fragment template must contain %forloop%")
      else alloc {| proto := VNull; props := ∅;
                    slot := IsShaderGenerator vertex fragment |}
  | _ => throw (Template.TypeError "fragment template is not a string")
  end.

(** The body of [function BatchPlugin(renderer)]. *)
Definition BatchPlugin (c : Config) (this : loc) (renderer : value) : M unit :=
  BaseBatchRenderer_call this renderer;;
  sg ← new_BatchShaderGenerator (cfg_vertex c) (cfg_fragment c);
  set_prop this "shaderGenerator" (VRef sg);;
  set_prop this "geometryClass" (cfg_geometryClass c);;
  set_prop this "vertexSize" (cfg_vertexSize c).

(** [static create(options)]. *)
Definition create (options : option (gmap string value)) : M loc :=
  let c := resolve options in
  f ← declare_function (CBatchPlugin (cfg_vertex c) (cfg_fragment c)
                                     (cfg_vertexSize c) (cfg_geometryClass c));
  p ← get_prop (VRef BaseBatchRenderer) "prototype";
  set_prop f "prototype" p;;
  mret f.

(** [new F(renderer)] for a constructor [F] that [create] returned: a
    fresh object whose prototype is the current [F.prototype], then the
    body of [BatchPlugin] on it; the body returns nothing, so the fresh
    object is the result. When [F.prototype] is not an object the prototype
    would be [Object.prototype], which has no part here and is [VNull]. *)
Definition construct (f : loc) (renderer : value) : M loc := fun h =>
  match slot <$> h !! f with
  | Some (IsFunction (CBatchPlugin v fr vs g)) =>
      (p ← get_prop (VRef f) "prototype";
       this ← alloc {| proto := match p with VRef _ => p | _ => VNull end;
                       props := ∅; slot := IsPlain |};
       BatchPlugin {| cfg_vertex := v; cfg_fragment := fr;
                      cfg_vertexSize := vs; cfg_geometryClass := g |}
                   this renderer;;
       mret this) h
  | _ => Throw (Template.TypeError "not a constructor") h
  end.




(** Modelled from the spec: [render(drawable)] and [flush()] on an
    engine instance; they act on the state of that instance. *)
Definition on_engine (this : loc) (f : Engine.State -> Engine.State) : M unit :=
  fun h =>
    match h !! this with
    | Some o =>
        match slot o with
        | IsEngine s => Return () (<[this := with_slot (IsEngine (f s)) o]> h)
        | _ => Throw (Template.TypeError "not an engine") h
        end
    | None => Throw (Template.TypeError "not an engine") h
    end.

Definition render_at (this : loc) (d : Engine.Drawable) : M unit :=
  on_engine this (Engine.render d).

Definition flush_at (this : loc) : M unit :=
  on_engine this Engine.flush.

(** Evaluation of the module: the class object with its three static
    members, then [export const BatchRenderer =
    BatchRendererFactory.create()]. *)
Definition load_module : M (loc * loc) :=
  createFn ← alloc {| proto := VNull; props := ∅; slot := IsFunction CCreate |};
  cls ← alloc {| proto := VNull;
                 props := {[ "create" := Data (VRef createFn);
                             "defaultVertexSrc" :=
                               Accessor (Some GetDefaultVertexSrc) None;
                             "defaultFragmentTemplate" :=
                               Accessor (Some GetDefaultFragmentTemplate) None ]};
                 slot := IsFunction (CClass "BatchRendererFactory") |};
  batchRenderer ← create None;
  mret (cls, batchRenderer).

End Code.

End Factory.

(** ** Observations, traces and a loaded heap *)

Module Scene.
Import Js Factory.

(** The heap of a computation's outcome, returned or thrown. *)
Definition heap_of {A : Type} (r : outcome A) : heap :=
  match r with
  | Return _ h => h
  | Throw _ h => h
  end.

Definition own (h : heap) (l : loc) (k : string) : option property :=
  h !! l ≫= fun o => props o !! k.

(** The prototype object of a constructor: its own [prototype]
    property. *)
Definition prototype_of (h : heap) (f : loc) : option value :=
  match own h f "prototype" with
  | Some (Data v) => Some v
  | _ => None
  end.

(** The configuration fields of an instance: the sources its shader
    generator holds, its geometry class and its vertex size. *)
Definition instance_config (h : heap) (this : loc) : option Config :=
  match own h this "shaderGenerator", own h this "geometryClass",
        own h this "vertexSize" with
  | Some (Data (VRef sg)), Some (Data g), Some (Data vs) =>
      match slot <$> h !! sg with
      | Some (IsShaderGenerator v fr) =>
          Some {| cfg_vertex := v; cfg_fragment := fr;
                  cfg_vertexSize := vs; cfg_geometryClass := g |}
      | _ => None
      end
  | _, _, _ => None
  end.

(** The configuration a constructor closes over. *)
Definition closure_config (h : heap) (f : loc) : option Config :=
  match slot <$> h !! f with
  | Some (IsFunction (CBatchPlugin v fr vs g)) =>
      Some {| cfg_vertex := v; cfg_fragment := fr;
              cfg_vertexSize := vs; cfg_geometryClass := g |}
  | _ => None
  end.

(** The engine state of an instance. *)
Definition engine_of (h : heap) (this : loc) : option Engine.State :=
  match slot <$> h !! this with
  | Some (IsEngine s) => Some s
  | _ => None
  end.

Definition is_device (h : heap) (r : loc) (d : Engine.Device) : Prop :=
  slot <$> h !! r = Some (IsDevice d).

Definition is_data (p : property) : bool :=
  match p with
  | Data _ => true
  | Accessor _ _ => false
  end.

(** The stride a geometry class expects, when the value is one. *)
Definition expected_stride (h : heap) (g : value) : option nat :=
  match g with
  | VRef l =>
      match slot <$> h !! l with
      | Some (IsGeometryClass layout) => Some (stride layout)
      | _ => None
      end
  | _ => None
  end.

(** A configuration is mismatched when its geometry class expects a
    stride and its vertex size is not that number. *)
Definition mismatched (h : heap) (c : Config) : Prop :=
  exists n, expected_stride h (cfg_geometryClass c) = Some n
            /\ cfg_vertexSize c <> VNum (Z.of_nat n).

(** A later heap [h'] keeps the objects of [h0] as they are. *)
Definition extends (h0 h' : heap) : Prop :=
  forall l, is_Some (h0 !! l) -> h' !! l = h0 !! l.

(** A computation that touches nothing of [h0], whether it returns or
    throws, and whose result satisfies [Q]. *)
Definition keeps (h0 : heap) {A : Type} (m : M A) (Q : A -> Prop) : Prop :=
  forall h, extends h0 h ->
            extends h0 (heap_of (m h))
            /\ forall a h', m h = Return a h' -> Q a.

(** A later heap in which every object of [h] has its prototype and
    properties, and its slot but for the progress of an engine. *)
Definition preserves (h h' : heap) : Prop :=
  forall l o, h !! l = Some o ->
    exists o', h' !! l = Some o' /\ proto o' = proto o /\ props o' = props o
               /\ (slot o' = slot o
                   \/ exists s s', slot o = IsEngine s /\ slot o' = IsEngine s').

Definition no_accessor (o : option property) : Prop :=
  forall g s, o <> Some (Accessor g s).

(** [f] is a constructor of the factory: a function object that closes
    over [c] and whose [prototype] property is [pv]. *)
Definition is_plugin (h : heap) (f : loc) (c : Config) (pv : value) : Prop :=
  exists fo, h !! f = Some fo /\ proto fo = VNull
             /\ props fo !! "prototype" = Some (Data pv)
             /\ slot fo = IsFunction (CBatchPlugin (cfg_vertex c) (cfg_fragment c)
                                                   (cfg_vertexSize c)
                                                   (cfg_geometryClass c)).

(** The four option keys, the setting each one decides and the option a
    caller gives for it, if any. *)
Inductive key := KVertex | KFragment | KVertexSize | KGeometryClass.

Definition key_name (k : key) : string :=
  match k with
  | KVertex => "vertex"
  | KFragment => "fragment"
  | KVertexSize => "vertexSize"
  | KGeometryClass => "geometryClass"
  end.

Definition setting (k : key) (c : Config) : value :=
  match k with
  | KVertex => cfg_vertex c
  | KFragment => cfg_fragment c
  | KVertexSize => cfg_vertexSize c
  | KGeometryClass => cfg_geometryClass c
  end.

Definition given (options : option (gmap string value)) (k : key)
  : option value :=
  options ≫= fun o => o !! key_name k.

Section Loaded.
Context `{!Imports}.

(** The own properties of an instance as the constructor leaves it: what
    the base constructor gave it for the renderer, then the three fields
    that [BatchPlugin] assigns. *)
Definition instance_props (renderer : value) (c : Config) (sg : loc)
  : gmap string property :=
  <["vertexSize" := Data (cfg_vertexSize c)]>
    (<["geometryClass" := Data (cfg_geometryClass c)]>
       (<["shaderGenerator" := Data (VRef sg)]>
          ((Data <$> base_fields renderer) ∪ ∅))).

(** The defaults as the documentation of [create] lists them. *)
Definition default_of (k : key) : value :=
  match k with
  | KVertex => VStr defaultVertex
  | KFragment => VStr defaultFragment
  | KVertexSize => VNum 6
  | KGeometryClass => VRef BatchGeometry
  end.

Definition default_config : Config :=
  {| cfg_vertex := default_of KVertex;
     cfg_fragment := default_of KFragment;
     cfg_vertexSize := default_of KVertexSize;
     cfg_geometryClass := default_of KGeometryClass |}.

(** Two statements that the code does not satisfy. The first: two
    constructors of the factory have distinct prototype objects, neither
    of them the prototype of the base renderer. *)
Definition distinct_prototypes (h : heap)
           (c1 c2 : option (gmap string value)) : Prop :=
  forall f1 h1 f2 h2,
    create c1 h = Return f1 h1 -> create c2 h1 = Return f2 h2 ->
    prototype_of h2 f1 <> prototype_of h2 f2
    /\ prototype_of h2 f1 <> prototype_of h2 BaseBatchRenderer
    /\ prototype_of h2 f2 <> prototype_of h2 BaseBatchRenderer.

(** The second: for a mismatched configuration [create] throws, or the
    constructor it returns does. *)
Definition mismatch_signaled (h : heap)
           (options : option (gmap string value)) (renderer : value) : Prop :=
  mismatched h (resolve options) ->
  (exists e h', create options h = Throw e h')
  \/ (exists f h1 e h', create options h = Return f h1
                        /\ construct f renderer h1 = Throw e h').

(** The imported classes are in the heap: [BaseBatchRenderer] is a
    function object whose [prototype] is an object of data properties
    at the end of its chain. *)
Record loaded (h : heap) (p : loc) : Prop := {
  loaded_base : own h BaseBatchRenderer "prototype" = Some (Data (VRef p));
  loaded_proto : exists po, h !! p = Some po /\ proto po = VNull
                            /\ map_Forall (fun _ pr => is_data pr = true) (props po)
}.

(** What client code does with the factory and its constructors. *)
Inductive action :=
| Create (options : option (gmap string value))
| Construct (f : loc) (renderer : value)
| Render (this : loc) (d : Engine.Drawable)
| Flush (this : loc).

Definition perform (a : action) : M unit :=
  match a with
  | Create options => create options;; mret ()
  | Construct f renderer => construct f renderer;; mret ()
  | Render this d => render_at this d
  | Flush this => flush_at this
  end.

(** A trace of actions; an exception ends it. *)
Fixpoint perform_all (l : list action) : M unit :=
  match l with
  | [] => mret ()
  | a :: l' => perform a;; perform_all l'
  end.

End Loaded.

(** A concrete setting: sample shader sources, the imported classes at
    locations 0 and 2, the prototype of the base renderer at 1, a device
    with four texture units at 3, and a base constructor that keeps the
    renderer and a batch size on the instance. *)
Definition sample_imports : Imports :=
  {| defaultVertex := "attribute vec2 aVertexPosition; void main(void){ gl_Position = vec4(aVertexPosition, 0.0, 1.0); }";
     defaultFragment := "uniform sampler2D uSamplers[%count%]; void main(void){ vec4 color; %forloop% gl_FragColor = color * vColor; }";
     BatchGeometry := 2;
     BaseBatchRenderer := 0;
     base_fields := fun renderer => {[ "renderer" := renderer;
                                       "size" := VNum 8000 ]};
     defaultFragment_template := eq_refl |}.

Definition sample_device : Engine.Device :=
  {| Engine.dev_maxTextureUnits := 4; Engine.dev_bufferCapacity := 16 |}.

Definition sample_heap : heap :=
  {[ 0 := {| proto := VNull;
             props := {[ "prototype" := Data (VRef 1) ]};
             slot := IsFunction (CClass "BatchRenderer") |};
     1 := {| proto := VNull;
             props := {[ "constructor" := Data (VRef 0) ]};
             slot := IsPlain |};
     2 := {| proto := VNull; props := ∅;
             slot := IsGeometryClass standard_layout |};
     3 := {| proto := VNull; props := ∅; slot := IsDevice sample_device |} ]}.

(** The fragment template of the example in the documentation of the
    factory. *)
Definition invert_fragment : string :=
  "uniform sampler2D uSamplers[%count%]; void main(void){ vec4 color; %forloop% gl_FragColor = vColor * vec4(color.a - color.rgb, color.a); }".

End Scene.

(** * Properties *)

(** ** The template expander *)

Module TemplateFacts.
Import Template.

Lemma append_nil (s : string) : "" +:+ s = s.
Proof. reflexivity. Qed.

Lemma append_cons (x : ascii) (a b : string) :
  String x a +:+ b = String x (a +:+ b).
Proof. reflexivity. Qed.

Ltac push_append := rewrite ?append_cons, ?append_nil in *.

Lemma append_assoc (a b c : string) : (a +:+ b) +:+ c = a +:+ b +:+ c.
Proof.
  induction a as [|x a IH]; push_append; [reflexivity | by rewrite IH].
Qed.

Lemma length_append (a b : string) :
  String.length (a +:+ b) = String.length a + String.length b.
Proof.
  induction a as [|x a IH]; push_append; simpl; [reflexivity | by rewrite IH].
Qed.

Lemma prefix_nil (s : string) : String.prefix "" s = true.
Proof. by destruct s. Qed.

Lemma prefix_append (t s : string) : String.prefix t (t +:+ s) = true.
Proof.
  induction t as [|x t IH]; push_append; simpl; [apply prefix_nil |].
  destruct (ascii_dec x x); [exact IH | congruence].
Qed.

Lemma append_nil_r (s : string) : s +:+ "" = s.
Proof. induction s as [|x s IH]; push_append; [done | by rewrite IH]. Qed.

Lemma prefix_refl (s : string) : String.prefix s s = true.
Proof. rewrite <- (append_nil_r s) at 2. apply prefix_append. Qed.

Lemma prefix_cons (c d : ascii) (t s : string) :
  String.prefix (String c t) (String d s)
  = if ascii_dec c d then String.prefix t s else false.
Proof. reflexivity. Qed.

Lemma prefix_weaken (t x y : string) :
  String.prefix t x = true -> String.prefix t (x +:+ y) = true.
Proof.
  revert x; induction t as [|c t IH]; intros x; [by rewrite !prefix_nil |].
  destruct x as [|d x]; push_append; simpl; [done |].
  destruct (ascii_dec c d); [apply IH | done].
Qed.

(** A token that starts a concatenation starts its first part or runs
    over into the second. *)
Lemma prefix_append_cases (t x y : string) :
  String.prefix t (x +:+ y) = true ->
  String.prefix t x = true
  \/ exists t2, t = x +:+ t2 /\ String.prefix t2 y = true.
Proof.
  revert t; induction x as [|d x IH]; intros t H.
  - right. by exists t.
  - destruct t as [|c t]; [by left |].
    push_append. simpl in *. destruct (ascii_dec c d) as [->|]; [|done].
    destruct (IH _ H) as [Hl | (t2 & -> & H2)]; [by left |].
    right. exists t2. by rewrite append_cons.
Qed.

Lemma drop_append_length (a s : string) : drop (String.length a) (a +:+ s) = s.
Proof.
  induction a as [|x a IH]; push_append; simpl; [by destruct s | exact IH].
Qed.

Lemma drop_append_le (n : nat) (a s : string) :
  n <= String.length a -> drop n (a +:+ s) = drop n a +:+ s.
Proof.
  revert a; induction n as [|n IH]; intros a Hn; [reflexivity |].
  destruct a as [|x a]; push_append; simpl in *; [lia |]. apply IH. lia.
Qed.

Lemma drop_append_ge (n : nat) (a s : string) :
  drop (String.length a + n) (a +:+ s) = drop n s.
Proof.
  induction a as [|x a IH]; push_append; simpl; [reflexivity | exact IH].
Qed.

Lemma drop_nonempty (n : nat) (s : string) :
  n < String.length s -> exists c s', drop n s = String c s'.
Proof.
  revert s; induction n as [|n IH]; intros [|x s] Hn; simpl in *; try lia.
  - by exists x, s.
  - apply IH. lia.
Qed.

Lemma all_chars_drop (P : ascii -> bool) (n : nat) (s : string) :
  all_chars P s = true -> all_chars P (drop n s) = true.
Proof.
  revert s; induction n as [|n IH]; intros [|x s] H; simpl in *; try done.
  apply IH. by apply andb_prop in H as [_ H].
Qed.

Lemma all_chars_append (P : ascii -> bool) (a b : string) :
  all_chars P (a +:+ b) = all_chars P a && all_chars P b.
Proof.
  induction a as [|x a IH]; push_append; simpl; [reflexivity |].
  by rewrite IH, andb_assoc.
Qed.

(** The leftmost occurrence is the one replaced. *)
Lemma replace_first_at (tok rep a c : string) :
  (forall n, n < String.length a ->
             String.prefix tok (drop n (a +:+ tok +:+ c)) = false) ->
  replace_first tok rep (a +:+ tok +:+ c) = Some (a +:+ rep +:+ c).
Proof.
  induction a as [|x a IH]; intros Hn; push_append.
  - destruct (tok +:+ c) eqn:E; cbn [replace_first];
      rewrite <- E, prefix_append, drop_append_length; reflexivity.
  - cbn [replace_first].
    pose proof (Hn 0 ltac:(simpl; lia)) as H0. cbn [drop] in H0.
    rewrite H0, IH; [reflexivity |].
    intros n Hlt. apply (Hn (S n)). simpl. lia.
Qed.

Lemma occurrences_pos (tok s : string) (n : nat) :
  n <= String.length s -> String.prefix tok (drop n s) = true ->
  1 <= occurrences tok s.
Proof.
  revert n; induction s as [|x s IH]; intros n Hn H;
    cbn [occurrences String.length] in *.
  - destruct n; cbn [drop] in H; [rewrite H; lia | lia].
  - destruct n as [|n]; cbn [drop] in H.
    + rewrite H. lia.
    + pose proof (IH n ltac:(lia) H). lia.
Qed.

(** A token that occurs once occurs at one position only. *)
Lemma occurrences_unique (tok s : string) (i j : nat) :
  occurrences tok s = 1 ->
  i <= String.length s -> j <= String.length s ->
  String.prefix tok (drop i s) = true ->
  String.prefix tok (drop j s) = true ->
  i = j.
Proof.
  revert i j; induction s as [|x s IH]; intros i j H1 Hi Hj Pi Pj;
    cbn [occurrences String.length] in *; [lia |].
  destruct i as [|i], j as [|j]; cbn [drop] in Pi, Pj; [reflexivity | | |].
  - rewrite Pi in H1.
    pose proof (occurrences_pos tok s j ltac:(lia) Pj). lia.
  - rewrite Pj in H1.
    pose proof (occurrences_pos tok s i ltac:(lia) Pi). lia.
  - f_equal. apply IH; try done; try lia.
    pose proof (occurrences_pos tok s i ltac:(lia) Pi).
    destruct (String.prefix tok (String x s)); lia.
Qed.

Lemma digits_of_uint (d : Decimal.uint) :
  all_chars is_digit (NilEmpty.string_of_uint d) = true.
Proof. induction d; simpl; try rewrite IHd; reflexivity. Qed.

Lemma decimal_digits (k : nat) : all_chars is_digit (decimal k) = true.
Proof.
  unfold decimal, NilZero.string_of_uint.
  destruct (Nat.to_uint k) eqn:E; try (rewrite <- E; apply digits_of_uint).
  reflexivity.
Qed.

Lemma decimal_nonempty (k : nat) : 0 < String.length (decimal k).
Proof.
  unfold decimal, NilZero.string_of_uint.
  destruct (Nat.to_uint k); simpl; lia.
Qed.

Lemma drop_length_le (n : nat) (s : string) :
  String.length (drop n s) <= String.length s.
Proof.
  revert s; induction n as [|n IH]; intros [|x s]; simpl; try lia.
  pose proof (IH s). lia.
Qed.

(** A token that occurs once is the one [replace_first] replaces. *)
Lemma first_occurrence (tok rep a c : string) :
  occurrences tok (a +:+ tok +:+ c) = 1 ->
  replace_first tok rep (a +:+ tok +:+ c) = Some (a +:+ rep +:+ c).
Proof.
  intros H1. apply replace_first_at. intros n Hn.
  destruct (String.prefix tok (drop n (a +:+ tok +:+ c))) eqn:E; [|done].
  assert (n = String.length a); [|lia].
  apply (occurrences_unique tok (a +:+ tok +:+ c)); try done.
  - rewrite length_append. lia.
  - rewrite length_append. lia.
  - by rewrite drop_append_length, prefix_append.
Qed.

Lemma forloop_no_digit :
  all_chars (fun c => negb (is_digit c)) FORLOOP = true.
Proof. reflexivity. Qed.

(** Count placeholder first: after the count is written, the loop
    placeholder is still the leftmost one. *)
Lemma forloop_after_count (a b c rep : string) (k : nat) :
  occurrences FORLOOP (a +:+ COUNT +:+ b +:+ FORLOOP +:+ c) = 1 ->
  replace_first FORLOOP rep (a +:+ decimal k +:+ b +:+ FORLOOP +:+ c)
  = Some (a +:+ decimal k +:+ b +:+ rep +:+ c).
Proof.
  intros H1.
  set (t := a +:+ COUNT +:+ b +:+ FORLOOP +:+ c) in *.
  assert (Hlen : String.length t
                 = String.length a + (7 + (String.length b
                     + (9 + String.length c)))).
  { unfold t. by rewrite !length_append. }
  assert (Hknown : String.prefix FORLOOP
            (drop (String.length a + (7 + String.length b)) t) = true).
  { unfold t. rewrite drop_append_ge.
    change 7 with (String.length COUNT).
    by rewrite drop_append_ge, drop_append_length, prefix_append. }
  assert (Hat : forall m, m <= String.length b ->
            String.prefix FORLOOP (drop (String.length a + (7 + m)) t) = true ->
            m = String.length b).
  { intros m Hm Hp.
    assert (String.length a + (7 + m)
            = String.length a + (7 + String.length b)); [|lia].
    apply (occurrences_unique FORLOOP t); try done; lia. }
  pose proof (decimal_digits k) as Hdig.
  pose proof (decimal_nonempty k) as Hne.
  set (dec := decimal k) in *.
  replace (a +:+ dec +:+ b +:+ FORLOOP +:+ c)
    with ((a +:+ dec +:+ b) +:+ FORLOOP +:+ c)
    by (by rewrite !append_assoc).
  replace (a +:+ dec +:+ b +:+ rep +:+ c)
    with ((a +:+ dec +:+ b) +:+ rep +:+ c)
    by (by rewrite !append_assoc).
  apply replace_first_at. intros n Hn.
  rewrite !length_append in Hn. rewrite !append_assoc.
  destruct (String.prefix FORLOOP
              (drop n (a +:+ dec +:+ b +:+ FORLOOP +:+ c))) eqn:E; [|done].
  exfalso.
  destruct (decide (n < String.length a)) as [Ha|Ha].
  - (* the occurrence starts in [a] *)
    rewrite drop_append_le in E by lia.
    destruct (drop_nonempty n a Ha) as (x & a' & Hd).
    apply prefix_append_cases in E as [E | (t2 & Ht2 & E)].
    + assert (n = String.length a + (7 + String.length b)); [|lia].
      apply (occurrences_unique FORLOOP t); try done; try lia.
      unfold t. rewrite drop_append_le by lia. by apply prefix_weaken.
    + destruct (drop_nonempty 0 dec Hne) as (d & dec' & Hdec).
      cbn [drop] in Hdec. rewrite Hdec in E, Hdig. push_append.
      destruct t2 as [|d2 t2].
      * assert (n = String.length a + (7 + String.length b)); [|lia].
        apply (occurrences_unique FORLOOP t); try done; try lia.
        unfold t. rewrite drop_append_le by lia. apply prefix_weaken.
        rewrite append_nil_r in Ht2. rewrite Ht2. apply prefix_refl.
      * simpl in E. destruct (ascii_dec d2 d) as [->|]; [|done].
        pose proof forloop_no_digit as Hno. rewrite Ht2 in Hno.
        rewrite all_chars_append in Hno. simpl in Hno, Hdig.
        apply andb_prop in Hno as [_ Hno].
        apply andb_prop in Hno as [Hno _].
        apply andb_prop in Hdig as [Hdig _].
        rewrite Hdig in Hno. done.
  - destruct (decide (n < String.length a + String.length dec)) as [Hd|Hd].
    + (* the occurrence starts in the decimal literal *)
      replace n with (String.length a + (n - String.length a)) in E by lia.
      rewrite drop_append_ge in E. rewrite drop_append_le in E by lia.
      destruct (drop_nonempty (n - String.length a) dec ltac:(lia))
        as (d & dec' & Hdec).
      pose proof (all_chars_drop _ (n - String.length a) _ Hdig) as Hd'.
      rewrite Hdec in E, Hd'. push_append.
      change FORLOOP with (String "%" "forloop%") in E.
      rewrite prefix_cons in E. cbn [all_chars] in Hd'.
      destruct (ascii_dec "%" d) as [<-|]; done.
    + (* the occurrence starts in [b] *)
      set (m := n - String.length a - String.length dec).
      replace n with (String.length a + (String.length dec + m)) in E
        by (unfold m; lia).
      rewrite !drop_append_ge in E.
      assert (m = String.length b); [|unfold m in *; lia].
      apply Hat; [unfold m; lia |].
      unfold t. rewrite drop_append_ge.
      change 7 with (String.length COUNT). by rewrite drop_append_ge.
Qed.

(** Loop placeholder first: writing the count further right leaves the
    loop placeholder the leftmost one. *)
Lemma forloop_before_count (a b c rep dec : string) :
  occurrences FORLOOP (a +:+ FORLOOP +:+ b +:+ COUNT +:+ c) = 1 ->
  replace_first FORLOOP rep (a +:+ FORLOOP +:+ b +:+ dec +:+ c)
  = Some (a +:+ rep +:+ b +:+ dec +:+ c).
Proof.
  intros H1. apply replace_first_at. intros n Hn.
  destruct (String.prefix FORLOOP
              (drop n (a +:+ FORLOOP +:+ b +:+ dec +:+ c))) eqn:E; [|done].
  exfalso.
  rewrite drop_append_le in E by lia.
  destruct (drop_nonempty n a Hn) as (x & a' & Hd).
  rewrite <- (append_assoc (drop n a) FORLOOP) in E.
  apply prefix_append_cases in E as [E | (t2 & Ht2 & E)].
  - assert (n = String.length a); [|lia].
    apply (occurrences_unique FORLOOP
             (a +:+ FORLOOP +:+ b +:+ COUNT +:+ c)); try done.
    + rewrite length_append. lia.
    + rewrite length_append. lia.
    + rewrite drop_append_le by lia.
      rewrite <- (append_assoc (drop n a) FORLOOP).
      by apply prefix_weaken.
    + by rewrite drop_append_length, prefix_append.
  - apply (f_equal String.length) in Ht2.
    rewrite Hd, !length_append in Ht2. simpl in Ht2. lia.
Qed.

Lemma blocks_from_join (unit_block : nat -> string) (i n : nat) :
  blocks_from unit_block i n = join (unit_block <$> seq i n).
Proof.
  revert i; induction n as [|n IH]; intros i; simpl; [reflexivity |].
  by rewrite IH.
Qed.



(** C3. For a template with one count placeholder and one loop
    placeholder, in either order between arbitrary texts [a], [b] and [c],
    and a unit count [k >= 1], [expand] returns the template with the
    count placeholder replaced by the decimal literal of [k] and the loop
    placeholder replaced by the [k] per-unit blocks of the unit indices
    0, 1, ..., k-1 in ascending order. *)
Theorem expand_fills_placeholders
        (unit_block : nat -> string) (count_first : bool)
        (a b c : string) (k : nat) :
  1 <= k ->
  occurrences COUNT (fill count_first a b c COUNT FORLOOP) = 1 ->
  occurrences FORLOOP (fill count_first a b c COUNT FORLOOP) = 1 ->
  expand unit_block (fill count_first a b c COUNT FORLOOP) k
  = inr (fill count_first a b c (decimal k)
              (join (unit_block <$> seq 0 k))).
Proof.
  intros _ Hcount Hloop. unfold expand. rewrite blocks_from_join.
  destruct count_first; unfold fill in *.
  - rewrite (first_occurrence COUNT _ a _ Hcount).
    by rewrite (forloop_after_count a b c _ k Hloop).
  - replace (a +:+ FORLOOP +:+ b +:+ COUNT +:+ c)
      with ((a +:+ FORLOOP +:+ b) +:+ COUNT +:+ c) in Hcount |- *
      by (by rewrite !append_assoc).
    rewrite (first_occurrence COUNT _ _ _ Hcount). rewrite !append_assoc.
    by rewrite (forloop_before_count a b c _ _ Hloop).
Qed.

Lemma expand_fills_placeholders_witness :
  expand sample_block
         (fill true "uniform sampler2D uSamplers[" "]; void main(void){ "
               " }" COUNT FORLOOP) 2
  = inr ("uniform sampler2D uSamplers[2]; void main(void){ "
           +:+ sample_block 0 +:+ sample_block 1 +:+ " }").
Proof.
  apply (expand_fills_placeholders sample_block true
           "uniform sampler2D uSamplers[" "]; void main(void){ " " }" 2);
    [lia | reflexivity | reflexivity].
Defined.

End TemplateFacts.

(** ** The engine: draw order *)

Module EngineFacts.
Import Engine.

Lemma split_runs_concat (b : nat) (run : list Drawable)
      (l : list (Drawable * nat)) :
  concat (split_runs b run l) = rev run ++ (fst <$> l).
Proof.
  revert b run; induction l as [|[d slot] l IH]; intros b run; simpl.
  - reflexivity.
  - destruct (blendMode d =? b); simpl; rewrite IH; simpl.
    + by rewrite <- app_assoc.
    + reflexivity.
Qed.

Lemma descriptors_objects (slots : gmap nat nat) (l : list (Drawable * nat)) :
  concat (objects <$> descriptors slots l) = fst <$> l.
Proof.
  destruct l as [|[d slot] l]; [reflexivity |].
  unfold descriptors.
  generalize (split_runs_concat (blendMode d) [d] l).
  generalize (split_runs (blendMode d) [d] l). intros runs Hruns.
  transitivity (concat runs); [|by rewrite Hruns].
  f_equal. clear Hruns. induction runs as [|r runs IH]; [done |].
  by rewrite !fmap_cons, IH.
Qed.

Lemma drawn_flush (s : State) : drawn (flush s) = seen s.
Proof.
  unfold drawn, seen, flush; simpl.
  by rewrite fmap_app, concat_app, descriptors_objects.
Qed.

Lemma seen_flush (s : State) : seen (flush s) = seen s.
Proof.
  unfold seen at 1. rewrite drawn_flush. simpl. by rewrite app_nil_r.
Qed.

Lemma seen_accumulate (d : Drawable) (s : State) :
  seen (accumulate d s) = seen s ++ [d].
Proof.
  unfold seen, drawn, accumulate; simpl.
  by rewrite fmap_app, app_assoc.
Qed.

Lemma seen_render (d : Drawable) (s : State) :
  seen (render d s) = seen s ++ [d].
Proof.
  unfold render. rewrite seen_accumulate.
  destruct (must_flush d s); by rewrite ?seen_flush.
Qed.

Lemma seen_foldl (ds : list Drawable) (s : State) :
  seen (foldl (fun s d => render d s) s ds) = seen s ++ ds.
Proof.
  revert s; induction ds as [|d ds IH]; intros s; simpl.
  - by rewrite app_nil_r.
  - by rewrite IH, seen_render, <- app_assoc.
Qed.

(** C2. Whatever the unit count and the buffer capacity of the device,
    and whatever the textures, sizes and blend modes of the drawables, the
    object ranges of the descriptors emitted by a render pass, joined in
    emission order, are the drawables in their input order. *)
Theorem draw_order_preserved (dev : Device) (ds : list Drawable) :
  drawn (render_pass ds (init dev)) = ds.
Proof.
  unfold render_pass. by rewrite drawn_flush, seen_foldl.
Qed.

Lemma draw_order_preserved_witness :
  drawn (render_pass [quad 1 0; quad 2 1; quad 1 0; quad 3 1; quad 4 1]
           (init {| dev_maxTextureUnits := 2; dev_bufferCapacity := 8 |}))
  = [quad 1 0; quad 2 1; quad 1 0; quad 3 1; quad 4 1].
Proof. apply draw_order_preserved. Defined.

(** The same from any state of the engine: a pass adds its drawables,
    in order, after everything seen before. *)
Lemma render_pass_appends (s : State) (ds : list Drawable) :
  drawn (render_pass ds s) = seen s ++ ds.
Proof. unfold render_pass. by rewrite drawn_flush, seen_foldl. Qed.

(** Five drawables of five textures on four units: the fifth forces a
    flush, so two draw calls, of four objects and of one. *)
Example five_textures_four_units :
  objects <$> drawCalls
    (render_pass [quad 1 0; quad 2 0; quad 3 0; quad 4 0; quad 5 0]
       (init {| dev_maxTextureUnits := 4; dev_bufferCapacity := 400 |}))
  = [[quad 1 0; quad 2 0; quad 3 0; quad 4 0]; [quad 5 0]].
Proof. reflexivity. Qed.

(** Three drawables of one texture: one draw call, one slot. *)
Example one_texture :
  (fun b => (objects b, size (boundSlots b))) <$> drawCalls
    (render_pass [quad 7 0; quad 7 0; quad 7 0]
       (init {| dev_maxTextureUnits := 4; dev_bufferCapacity := 400 |}))
  = [([quad 7 0; quad 7 0; quad 7 0], 1)].
Proof. reflexivity. Qed.

(** A buffer of eight vertices takes two quads for each flush. *)
Example buffer_capacity :
  objects <$> drawCalls
    (render_pass [quad 1 0; quad 1 0; quad 1 0]
       (init {| dev_maxTextureUnits := 4; dev_bufferCapacity := 8 |}))
  = [[quad 1 0; quad 1 0]; [quad 1 0]].
Proof. reflexivity. Qed.

End EngineFacts.

(** ** The factory and its constructors *)

Module FactoryFacts.
Import Js Factory Scene.

Lemma fresh_lookup (h : heap) : h !! fresh (dom h) = None.
Proof. apply not_elem_of_dom, is_fresh. Qed.

Lemma extends_refl (h : heap) : extends h h.
Proof. by intros l _. Qed.

Lemma extends_insert_fresh (h0 h : heap) (l : loc) (o : object) :
  h0 !! l = None -> extends h0 h -> extends h0 (<[l := o]> h).
Proof.
  intros Hl He l' [o' Ho']. rewrite lookup_insert_ne; [|congruence].
  apply He. by exists o'.
Qed.

Lemma extends_fresh (h0 h : heap) : extends h0 h -> h0 !! fresh (dom h) = None.
Proof.
  intros He. destruct (h0 !! fresh (dom h)) eqn:E; [|done].
  rewrite <- He, fresh_lookup in E by eauto. done.
Qed.

Lemma extends_preserves (h h' : heap) : extends h h' -> preserves h h'.
Proof.
  intros He l o Ho. exists o. rewrite He by eauto. auto.
Qed.

Lemma preserves_refl (h : heap) : preserves h h.
Proof. intros l o Ho. exists o. auto. Qed.

Lemma preserves_trans (h1 h2 h3 : heap) :
  preserves h1 h2 -> preserves h2 h3 -> preserves h1 h3.
Proof.
  intros H12 H23 l o Ho.
  destruct (H12 l o Ho) as (o2 & Ho2 & Hp2 & Hq2 & Hs2).
  destruct (H23 l o2 Ho2) as (o3 & Ho3 & Hp3 & Hq3 & Hs3).
  exists o3. repeat split; [done | congruence | congruence |].
  destruct Hs2 as [Hs2 | (s & s' & Hs & Hs')],
           Hs3 as [Hs3 | (t & t' & Ht & Ht')].
  - left. congruence.
  - right. exists t, t'. split; congruence.
  - right. exists s, s'. split; congruence.
  - right. exists s, t'. split; congruence.
Qed.

(** *** The frame rules of the monad *)

Lemma keeps_ret (h0 : heap) {A : Type} (a : A) (Q : A -> Prop) :
  Q a -> keeps h0 (mret a) Q.
Proof. intros Ha h He. split; [done |]. by intros ? ? [= <- <-]. Qed.

Lemma keeps_bind (h0 : heap) {A B : Type} (m : M A) (k : A -> M B)
      (Q : A -> Prop) (R : B -> Prop) :
  keeps h0 m Q -> (forall a, Q a -> keeps h0 (k a) R) -> keeps h0 (m ≫= k) R.
Proof.
  intros Hm Hk h He. destruct (Hm h He) as [He' HQ].
  unfold mbind, M_bind. destruct (m h) as [a h1 | e h1] eqn:E; simpl in *.
  - apply (Hk a (HQ a h1 eq_refl) h1 He').
  - split; [done | done].
Qed.

Lemma keeps_alloc (h0 : heap) (o : object) :
  keeps h0 (alloc o) (fun l => h0 !! l = None).
Proof.
  intros h He. pose proof (extends_fresh h0 h He) as Hf. split.
  - by apply extends_insert_fresh.
  - by intros ? ? [= <- <-].
Qed.

Lemma keeps_get_prop `{!Imports} (h0 : heap) (v : value) (k : string) :
  keeps h0 (get_prop v k) (fun _ => True).
Proof.
  intros h He. split; [|done]. unfold get_prop.
  destruct v; try done;
    by destruct (find_property _ _ _ _) as [[?|[?|] ?]|].
Qed.

Lemma keeps_set_prop `{!Imports} (h0 : heap) (l : loc) (k : string) (v : value) :
  h0 !! l = None -> keeps h0 (set_prop l k v) (fun _ => True).
Proof.
  intros Hl h He. split; [|done]. unfold set_prop.
  destruct (h !! l); [|done].
  destruct (find_property _ _ _ _) as [[?|? [[]|]]|]; simpl; try done;
    by apply extends_insert_fresh.
Qed.

Lemma keeps_base_call `{!Imports} (h0 : heap) (this : loc) (r : value) :
  h0 !! this = None -> keeps h0 (BaseBatchRenderer_call this r) (fun _ => True).
Proof.
  intros Hl h He. split; [|done]. unfold BaseBatchRenderer_call.
  destruct r; try done.
  destruct (slot <$> h !! l) as [[]|]; try done.
  destruct (h !! this); [|done]. by apply extends_insert_fresh.
Qed.


Lemma bind_return {A B : Type} (m : M A) (k : A -> M B) (h h' : heap) (a : A) :
  m h = Return a h' -> (m ≫= k) h = k a h'.
Proof. intros E. unfold mbind, M_bind. by rewrite E. Qed.

Lemma bind_throw {A B : Type} (m : M A) (k : A -> M B) (h h' : heap) e :
  m h = Throw e h' -> (m ≫= k) h = Throw e h'.
Proof. intros E. unfold mbind, M_bind. by rewrite E. Qed.

Lemma find_property_own (n : nat) (h : heap) (l : loc) (o : object)
      (k : string) (pr : property) :
  h !! l = Some o -> props o !! k = Some pr ->
  find_property (S n) h (VRef l) k = Some pr.
Proof. intros Hl Hk. simpl. by rewrite Hl, Hk. Qed.

Lemma find_property_end (n : nat) (h : heap) (l : loc) (o : object) (k : string) :
  h !! l = Some o -> props o !! k = None -> proto o = VNull ->
  find_property n h (VRef l) k = None.
Proof.
  intros Hl Hk Hp. destruct n as [|n]; [done |]. simpl.
  rewrite Hl, Hk, Hp. by destruct n.
Qed.

(** An object of data properties whose prototype is one too, at the end
    of the chain, inherits no accessor. *)
Lemma find_property_data (n : nat) (h : heap) (l p : loc) (o po : object)
      (k : string) :
  h !! l = Some o -> proto o = VRef p ->
  map_Forall (fun _ pr => is_data pr = true) (props o) ->
  h !! p = Some po -> proto po = VNull ->
  map_Forall (fun _ pr => is_data pr = true) (props po) ->
  no_accessor (find_property n h (VRef l) k).
Proof.
  intros Hl Hp Hd Hl' Hp' Hd' g s. destruct n as [|n]; [done |]. simpl.
  rewrite Hl. destruct (props o !! k) as [pr|] eqn:Hk.
  - intros [= ->]. by apply Hd in Hk.
  - rewrite Hp. destruct n as [|n]; [done |]. simpl.
    rewrite Hl'. destruct (props po !! k) as [pr|] eqn:Hk'.
    + intros [= ->]. by apply Hd' in Hk'.
    + rewrite Hp'. by destruct n.
Qed.

Section WithImports.
Context `{!Imports}.

Lemma get_prop_own (h : heap) (l : loc) (k : string) (x : value) :
  own h l k = Some (Data x) -> get_prop (VRef l) k h = Return x h.
Proof.
  unfold own, get_prop. intros Ho.
  destruct (h !! l) as [o|] eqn:Hl; [|done]. simpl in Ho.
  by rewrite (find_property_own _ h l o k (Data x)).
Qed.

Lemma get_prop_ref (h : heap) (l : loc) (k : string) :
  exists x, get_prop (VRef l) k h = Return x h.
Proof.
  unfold get_prop.
  destruct (find_property _ _ _ _) as [[?|[?|] ?]|]; eauto.
Qed.

Lemma set_prop_return (h : heap) (l : loc) (o : object) (k : string) (v : value) :
  h !! l = Some o ->
  no_accessor (find_property (S (size h)) h (VRef l) k) ->
  set_prop l k v h = Return () (<[l := with_props (insert k (Data v)) o]> h).
Proof.
  unfold set_prop. intros -> Hno.
  destruct (find_property _ _ _ _) as [[?|g s]|]; try done.
  by destruct (Hno g s).
Qed.

(** *** Frames of the factory's code *)

Lemma keeps_declare_function (h0 : heap) (c : code) :
  keeps h0 (declare_function c) (fun f => h0 !! f = None).
Proof.
  unfold declare_function.
  eapply keeps_bind; [apply keeps_alloc |]. intros f Hf.
  eapply keeps_bind; [apply keeps_alloc |]. intros p Hp.
  eapply keeps_bind; [by apply keeps_set_prop |]. intros _ _.
  by apply keeps_ret.
Qed.

Lemma keeps_create (h0 : heap) (options : option (gmap string value)) :
  keeps h0 (create options) (fun f => h0 !! f = None).
Proof.
  unfold create.
  eapply keeps_bind; [apply keeps_declare_function |]. intros f Hf.
  eapply keeps_bind; [apply keeps_get_prop |]. intros p _.
  eapply keeps_bind; [by apply keeps_set_prop |]. intros _ _.
  by apply keeps_ret.
Qed.

Lemma keeps_throw (h0 : heap) {A : Type} (e : Template.error) (Q : A -> Prop) :
  keeps h0 (throw e) Q.
Proof. intros h He. split; [done | by intros a h' [=]]. Qed.

Lemma keeps_new_generator (h0 : heap) (v fr : value) :
  keeps h0 (new_BatchShaderGenerator v fr) (fun l => h0 !! l = None).
Proof.
  unfold new_BatchShaderGenerator.
  destruct fr; try apply keeps_throw.
  destruct (_ =? 0)%nat; [apply keeps_throw |].
  destruct (_ =? 0)%nat; [apply keeps_throw | apply keeps_alloc].
Qed.

(** An accepted template is kept; any other fragment source is an
    error and leaves the heap as it is. *)
Lemma new_generator_accepted (v fr : value) :
  accepts_template fr = true ->
  new_BatchShaderGenerator v fr
  = alloc {| proto := VNull; props := ∅; slot := IsShaderGenerator v fr |}.
Proof.
  unfold accepts_template, new_BatchShaderGenerator, Template.has_placeholders.
  destruct fr; try done.
  destruct (_ =? 0)%nat; [done |]. by destruct (_ =? 0)%nat.
Qed.

Lemma new_generator_rejected (v fr : value) (h : heap) :
  accepts_template fr = false ->
  exists e, new_BatchShaderGenerator v fr h = Throw e h.
Proof.
  unfold accepts_template, new_BatchShaderGenerator, Template.has_placeholders.
  destruct fr; try (by eexists).
  destruct (_ =? 0)%nat; [by eexists |].
  destruct (_ =? 0)%nat; [by eexists | done].
Qed.

Lemma keeps_BatchPlugin (h0 : heap) (c : Config) (this : loc) (r : value) :
  h0 !! this = None -> keeps h0 (BatchPlugin c this r) (fun _ => True).
Proof.
  intros Hthis. unfold BatchPlugin.
  eapply keeps_bind; [by apply keeps_base_call |]. intros _ _.
  eapply keeps_bind; [apply keeps_new_generator |]. intros sg Hsg.
  eapply keeps_bind; [by apply keeps_set_prop |]. intros _ _.
  eapply keeps_bind; [by apply keeps_set_prop |]. intros _ _.
  by apply keeps_set_prop.
Qed.

Lemma keeps_construct (h0 : heap) (f : loc) (r : value) :
  keeps h0 (construct f r) (fun this => h0 !! this = None).
Proof.
  intros h He. unfold construct.
  destruct (slot <$> h !! f) as [[| [] | | | |]|]; try done.
  revert h He.
  eapply keeps_bind; [apply keeps_get_prop |]. intros p _.
  eapply keeps_bind; [apply keeps_alloc |]. intros this Hthis.
  eapply keeps_bind; [by apply keeps_BatchPlugin |]. intros _ _.
  by apply keeps_ret.
Qed.

Lemma preserves_on_engine (this : loc) (g : Engine.State -> Engine.State)
      (h : heap) :
  preserves h (heap_of (on_engine this g h)).
Proof.
  unfold on_engine.
  destruct (h !! this) as [o|] eqn:Hthis; [|apply preserves_refl].
  destruct (slot o) eqn:Hs; try apply preserves_refl. simpl.
  intros l o' Hl. destruct (decide (l = this)) as [->|Hne].
  - rewrite lookup_insert_eq. eexists. split; [done |].
    simplify_eq. repeat split; eauto.
  - rewrite lookup_insert_ne by done. exists o'. auto.
Qed.

Lemma preserves_perform (a : action) (h : heap) :
  preserves h (heap_of (perform a h)).
Proof.
  destruct a as [options | f r | this d | this]; simpl.
  - apply extends_preserves.
    assert (keeps h (create options ≫= fun _ => mret ()) (fun _ => True)) as Hk.
    { eapply keeps_bind; [apply keeps_create |]. intros. by apply keeps_ret. }
    apply (Hk h (extends_refl h)).
  - apply extends_preserves.
    assert (keeps h (construct f r ≫= fun _ => mret ()) (fun _ => True)) as Hk.
    { eapply keeps_bind; [apply keeps_construct |]. intros. by apply keeps_ret. }
    apply (Hk h (extends_refl h)).
  - apply preserves_on_engine.
  - apply preserves_on_engine.
Qed.

Lemma preserves_perform_all (l : list action) (h : heap) :
  preserves h (heap_of (perform_all l h)).
Proof.
  revert h; induction l as [|a l IH]; intros h; [apply preserves_refl |].
  cbn [perform_all]. unfold mbind, M_bind.
  pose proof (preserves_perform a h) as Ha.
  destruct (perform a h) as [[] h1 | e h1]; simpl in *; [|done].
  eapply preserves_trans; [exact Ha | apply IH].
Qed.

Lemma instance_config_preserved (h h' : heap) (this : loc) (c : Config) :
  preserves h h' ->
  instance_config h this = Some c -> instance_config h' this = Some c.
Proof.
  intros Hp. unfold instance_config, own.
  destruct (h !! this) as [o|] eqn:Hthis; [|done].
  destruct (Hp this o Hthis) as (o' & -> & _ & Hprops & _). simpl.
  rewrite Hprops.
  destruct (props o !! "shaderGenerator") as [[[]|]|]; try done.
  destruct (props o !! "geometryClass") as [[|]|]; try done.
  destruct (props o !! "vertexSize") as [[|]|]; try done.
  destruct (h !! l) as [osg|] eqn:Hsg; [|done].
  destruct (Hp l osg Hsg) as (osg' & -> & _ & _ & Hs). simpl.
  destruct Hs as [-> | (s & s' & -> & _)]; done.
Qed.

(** *** What the factory's code returns *)

Lemma bind_alloc {B : Type} (o : object) (k : loc -> M B) (h : heap) :
  (alloc o ≫= k) h = k (fresh (dom h)) (<[fresh (dom h) := o]> h).
Proof. reflexivity. Qed.

Lemma declare_function_returns (c : code) (h : heap) :
  exists f p h',
    declare_function c h = Return f h'
    /\ h !! f = None /\ h !! p = None /\ f <> p /\ extends h h'
    /\ h' !! f = Some {| proto := VNull;
                         props := <["prototype" := Data (VRef p)]> ∅;
                         slot := IsFunction c |}
    /\ slot <$> h' !! p = Some IsPlain
    /\ forall l, l <> f -> l <> p -> h' !! l = h !! l.
Proof.
  pose proof (keeps_declare_function h c h (extends_refl h)) as [Hext Hfresh].
  unfold declare_function in *. rewrite !bind_alloc in *.
  set (f := fresh (dom h)) in *.
  set (F0 := {| proto := VNull; props := ∅; slot := IsFunction c |}) in *.
  set (h1 := <[f := F0]> h) in *.
  set (p := fresh (dom h1)) in *.
  set (h2 := <[p := _]> h1) in *.
  assert (Hp1 : h1 !! p = None) by apply fresh_lookup.
  unfold h1 in Hp1. apply lookup_insert_None in Hp1 as [Hp Hfp].
  assert (Hf2 : h2 !! f = Some F0).
  { unfold h2, h1. by rewrite lookup_insert_ne, lookup_insert_eq. }
  rewrite (bind_return _ _ h2 _ ()
             (set_prop_return h2 f F0 "prototype" (VRef p) Hf2
                ltac:(by rewrite (find_property_end _ h2 f F0)))) in *.
  exists f, p. eexists. split; [reflexivity |].
  split; [apply fresh_lookup |]. split; [done |]. split; [done |].
  split; [exact Hext |]. split; [by rewrite lookup_insert_eq |].
  split.
  - unfold h2. by rewrite lookup_insert_ne, lookup_insert_eq by done.
  - intros l Hlf Hlp. unfold h2, h1. by rewrite !lookup_insert_ne by done.
Qed.

(** [create] returns on every heap and for every options value: a new
    function object that closes over the resolved configuration, with
    the value of [BaseBatchRenderer.prototype] as its [prototype]. *)
Lemma create_returns (options : option (gmap string value)) (h : heap) :
  exists f h' pv,
    create options h = Return f h'
    /\ h !! f = None /\ extends h h'
    /\ is_plugin h' f (resolve options) pv
    /\ (forall p, own h BaseBatchRenderer "prototype" = Some (Data (VRef p)) ->
                  pv = VRef p)
    /\ (forall l o, h' !! l = Some o -> h !! l = None ->
                    slot o = IsPlain \/ exists c, slot o = IsFunction c).
Proof.
  pose proof (keeps_create h options h (extends_refl h)) as [Hext _].
  unfold create in *.
  destruct (declare_function_returns
              (CBatchPlugin (cfg_vertex (resolve options))
                            (cfg_fragment (resolve options))
                            (cfg_vertexSize (resolve options))
                            (cfg_geometryClass (resolve options))) h)
    as (f & p0 & h3 & Hdecl & Hf & Hp0 & Hfp & Hext3 & Hf3 & Hp3 & Hrest).
  rewrite (bind_return _ _ h h3 f Hdecl) in *.
  destruct (get_prop_ref h3 BaseBatchRenderer "prototype") as [pv Hpv].
  rewrite (bind_return _ _ h3 h3 pv Hpv) in *.
  rewrite (bind_return _ _ h3 _ ()
             (set_prop_return h3 f _ "prototype" pv Hf3
                ltac:(by erewrite find_property_own;
                        [| done | apply lookup_insert_eq]))) in *.
  exists f. do 2 eexists. split; [reflexivity |].
  split; [done |]. split; [exact Hext |]. split; [|split].
  - eexists. split; [apply lookup_insert_eq |]. simpl.
    split; [done |]. split; [apply lookup_insert_eq | done].
  - intros p Hown.
    assert (own h3 BaseBatchRenderer "prototype" = Some (Data (VRef p)))
      as Hown3.
    { unfold own in *. destruct (h !! BaseBatchRenderer) eqn:E; [|done].
      by rewrite Hext3, E by eauto. }
    rewrite (get_prop_own _ _ _ _ Hown3) in Hpv. congruence.
  - intros l o Hl Hnew. destruct (decide (l = f)) as [->|Hlf].
    + rewrite lookup_insert_eq in Hl. injection Hl as <-. right. eauto.
    + rewrite lookup_insert_ne in Hl by done.
      destruct (decide (l = p0)) as [->|Hlp].
      * rewrite Hl in Hp3. injection Hp3 as ->. by left.
      * rewrite Hrest in Hl by done. congruence.
Qed.

Lemma data_only_empty :
  map_Forall (fun (_ : string) pr => is_data pr = true)
             (∅ : gmap string property).
Proof. apply map_Forall_empty. Qed.

Lemma data_only_insert (m : gmap string property) (k : string) (v : value) :
  map_Forall (fun _ pr => is_data pr = true) m ->
  map_Forall (fun _ pr => is_data pr = true) (<[k := Data v]> m).
Proof. intros Hm. by apply map_Forall_insert_2. Qed.

Lemma data_only_base (m : gmap string value) :
  map_Forall (fun (_ : string) pr => is_data pr = true)
             ((Data <$> m) ∪ (∅ : gmap string property)).
Proof.
  rewrite (right_id_L ∅ (∪)). intros k pr Hk.
  apply lookup_fmap_Some in Hk as (v & <- & _). done.
Qed.

(** The body of [BatchPlugin] on a fresh object whose prototype is the
    base prototype, for a device handle and an accepted template. *)
Lemma BatchPlugin_returns (c : Config) (this p r : loc) (po : object)
      (d : Engine.Device) (h : heap) :
  h !! this = Some {| proto := VRef p; props := ∅; slot := IsPlain |} ->
  this <> p -> this <> r ->
  h !! p = Some po -> proto po = VNull ->
  map_Forall (fun _ pr => is_data pr = true) (props po) ->
  is_device h r d ->
  accepts_template (cfg_fragment c) = true ->
  exists sg h',
    BatchPlugin c this (VRef r) h = Return () h'
    /\ h !! sg = None
    /\ h' !! this
       = Some {| proto := VRef p;
                 props := instance_props (VRef r) c sg;
                 slot := IsEngine (Engine.init d) |}
    /\ h' !! sg
       = Some {| proto := VNull; props := ∅;
                 slot := IsShaderGenerator (cfg_vertex c) (cfg_fragment c) |}.
Proof.
  intros Hthis Hp Hr Hpo Hproto Hdata Hdev Hacc.
  unfold BatchPlugin. rewrite (new_generator_accepted _ _ Hacc).
  (* BaseBatchRenderer.call(this, renderer) *)
  set (T0 := {| proto := VRef p;
                props := (Data <$> base_fields (VRef r)) ∪ ∅;
                slot := IsEngine (Engine.init d) |}).
  set (h1 := <[this := T0]> h).
  assert (BaseBatchRenderer_call this (VRef r) h = Return () h1) as Hbase.
  { unfold BaseBatchRenderer_call. unfold is_device in Hdev.
    by rewrite Hdev, Hthis. }
  rewrite (bind_return _ _ h h1 () Hbase).
  (* new BatchShaderGenerator(vertex, fragment) *)
  rewrite bind_alloc.
  set (sg := fresh (dom h1)).
  set (h2 := <[sg := _]> h1).
  assert (Hsg1 : h1 !! sg = None) by apply fresh_lookup.
  assert (Hsg : h !! sg = None).
  { unfold h1 in Hsg1. apply lookup_insert_None in Hsg1. tauto. }
  assert (Hne : sg <> this).
  { unfold h1 in Hsg1. apply lookup_insert_None in Hsg1. intros E.
    destruct Hsg1 as [_ Hsg1]. by apply Hsg1. }
  assert (Hnp : sg <> p) by congruence.
  (* the three assignments *)
  assert (Hstep : forall (hh : heap) (o : object) (k : string) (v : value),
             hh !! this = Some o -> proto o = VRef p ->
             map_Forall (fun _ pr => is_data pr = true) (props o) ->
             hh !! p = Some po ->
             set_prop this k v hh
             = Return () (<[this := with_props (insert k (Data v)) o]> hh)).
  { intros hh o k v Ho Hop Hod Hpp. apply set_prop_return; [done |].
    by apply (find_property_data _ hh this p o po). }
  assert (Hp2 : h2 !! p = Some po).
  { unfold h2, h1. by rewrite !lookup_insert_ne by done. }
  assert (Ht2 : h2 !! this = Some T0).
  { unfold h2, h1. by rewrite lookup_insert_ne, lookup_insert_eq by done. }
  rewrite (bind_return _ _ h2 _ ()
             (Hstep h2 T0 "shaderGenerator" (VRef sg) Ht2 eq_refl
                    (data_only_base _) Hp2)).
  set (T1 := with_props _ T0). set (h3 := <[this := T1]> h2).
  assert (Hp3 : h3 !! p = Some po).
  { unfold h3. by rewrite lookup_insert_ne by done. }
  rewrite (bind_return _ _ h3 _ ()
             (Hstep h3 T1 "geometryClass" (cfg_geometryClass c)
                    ltac:(apply lookup_insert_eq) eq_refl
                    ltac:(apply data_only_insert, data_only_base) Hp3)).
  set (T2 := with_props _ T1). set (h4 := <[this := T2]> h3).
  assert (Hp4 : h4 !! p = Some po).
  { unfold h4. by rewrite lookup_insert_ne by done. }
  rewrite (Hstep h4 T2 "vertexSize" (cfg_vertexSize c)
                 ltac:(apply lookup_insert_eq) eq_refl
                 ltac:(do 2 apply data_only_insert; apply data_only_base)
                 Hp4).
  exists sg. eexists. split; [reflexivity |]. split; [done |].
  split; [by rewrite lookup_insert_eq |].
  unfold h4, h3, h2. by rewrite !lookup_insert_ne, lookup_insert_eq by done.
Qed.

(** [new F(renderer)] for a constructor of the factory whose
    [prototype] is the base prototype, on a device handle, when the
    fragment source it closes over is an accepted template. *)
Lemma construct_returns (f p r : loc) (c : Config)
      (d : Engine.Device) (h : heap) :
  loaded h p ->
  is_plugin h f c (VRef p) ->
  is_device h r d ->
  accepts_template (cfg_fragment c) = true ->
  exists this sg h',
    construct f (VRef r) h = Return this h'
    /\ h !! this = None /\ h !! sg = None /\ extends h h'
    /\ h' !! this
       = Some {| proto := VRef p;
                 props := instance_props (VRef r) c sg;
                 slot := IsEngine (Engine.init d) |}
    /\ h' !! sg
       = Some {| proto := VNull; props := ∅;
                 slot := IsShaderGenerator (cfg_vertex c) (cfg_fragment c) |}.
Proof.
  intros [Hbase (po & Hpo & Hproto & Hdata)]
         (fo & Hf & _ & Hprop & Hslot) Hdev Hacc.
  pose proof (keeps_construct h f (VRef r) h (extends_refl h)) as [Hext _].
  unfold construct in *. rewrite Hf in *. simpl in Hext |- *.
  rewrite Hslot in *.
  assert (get_prop (VRef f) "prototype" h = Return (VRef p) h) as Hget.
  { apply get_prop_own. unfold own. by rewrite Hf. }
  rewrite (bind_return _ _ h h (VRef p) Hget) in *.
  rewrite bind_alloc in *.
  set (this := fresh (dom h)) in *.
  set (h1 := <[this := _]> h) in *.
  assert (Hthis : h !! this = None) by apply fresh_lookup.
  assert (this <> p) by congruence.
  assert (this <> r).
  { unfold is_device in Hdev. intros <-. by rewrite Hthis in Hdev. }
  destruct (BatchPlugin_returns
              {| cfg_vertex := cfg_vertex c; cfg_fragment := cfg_fragment c;
                 cfg_vertexSize := cfg_vertexSize c;
                 cfg_geometryClass := cfg_geometryClass c |}
              this p r po d h1)
    as (sg & h' & Hrun & Hsg & Hthis' & Hsg'); try done.
  { unfold h1. by rewrite lookup_insert_eq. }
  { unfold h1. by rewrite lookup_insert_ne. }
  { unfold is_device, h1 in *. by rewrite lookup_insert_ne. }
  rewrite (bind_return _ _ h1 h' () Hrun) in *.
  exists this, sg, h'. split; [reflexivity |]. split; [done |].
  split; [|by split].
  unfold h1 in Hsg. apply lookup_insert_None in Hsg. tauto.
Qed.

(** The same constructor when the fragment source is not an accepted
    template: the shader generator raises, so does the constructor, and no
    object that was there before has changed. *)
Lemma construct_throws (f p r : loc) (c : Config)
      (d : Engine.Device) (h : heap) :
  loaded h p ->
  is_plugin h f c (VRef p) ->
  is_device h r d ->
  accepts_template (cfg_fragment c) = false ->
  exists e h', construct f (VRef r) h = Throw e h' /\ extends h h'.
Proof.
  intros [Hbase (po & Hpo & Hproto & Hdata)]
         (fo & Hf & _ & Hprop & Hslot) Hdev Hacc.
  pose proof (keeps_construct h f (VRef r) h (extends_refl h)) as [Hext _].
  unfold construct in *. rewrite Hf in *. simpl in Hext |- *.
  rewrite Hslot in *.
  assert (get_prop (VRef f) "prototype" h = Return (VRef p) h) as Hget.
  { apply get_prop_own. unfold own. by rewrite Hf. }
  rewrite (bind_return _ _ h h (VRef p) Hget) in *.
  rewrite bind_alloc in *.
  set (this := fresh (dom h)) in *.
  set (h1 := <[this := _]> h) in *.
  assert (Hthis : h !! this = None) by apply fresh_lookup.
  assert (Hr : this <> r).
  { unfold is_device in Hdev. intros <-. by rewrite Hthis in Hdev. }
  assert (exists h2, BaseBatchRenderer_call this (VRef r) h1 = Return () h2)
    as [h2 Hcall].
  { unfold BaseBatchRenderer_call, is_device, h1 in *.
    rewrite lookup_insert_ne, Hdev, lookup_insert_eq by done. eauto. }
  destruct (new_generator_rejected (cfg_vertex c) (cfg_fragment c) h2 Hacc)
    as [e Hgen].
  assert (BatchPlugin
            {| cfg_vertex := cfg_vertex c; cfg_fragment := cfg_fragment c;
               cfg_vertexSize := cfg_vertexSize c;
               cfg_geometryClass := cfg_geometryClass c |}
            this (VRef r) h1 = Throw e h2) as Hrun.
  { unfold BatchPlugin. rewrite (bind_return _ _ h1 h2 () Hcall).
    by rewrite (bind_throw _ _ h2 h2 e Hgen). }
  rewrite (bind_throw _ _ h1 h2 e Hrun) in *.
  by exists e, h2.
Qed.

(** A constructor that returns an instance closes over an accepted
    template. *)
Lemma construct_returned (f p r this : loc) (c : Config)
      (d : Engine.Device) (h h' : heap) :
  loaded h p ->
  is_plugin h f c (VRef p) ->
  is_device h r d ->
  construct f (VRef r) h = Return this h' ->
  accepts_template (cfg_fragment c) = true.
Proof.
  intros Hl Hplug Hdev Hn.
  destruct (accepts_template (cfg_fragment c)) eqn:E; [done |].
  destruct (construct_throws f p r c d h Hl Hplug Hdev E) as (e & h2 & Ht & _).
  congruence.
Qed.

Lemma loaded_extends (h h' : heap) (p : loc) :
  loaded h p -> extends h h' -> loaded h' p.
Proof.
  intros [Hbase (po & Hpo & Hrest)] Hext. split.
  - unfold own in *. destruct (h !! BaseBatchRenderer) eqn:E; [|done].
    by rewrite Hext, E by eauto.
  - exists po. split; [|done]. by rewrite Hext by eauto.
Qed.

Lemma is_device_extends (h h' : heap) (r : loc) (d : Engine.Device) :
  is_device h r d -> extends h h' -> is_device h' r d.
Proof.
  unfold is_device. intros Hd Hext.
  destruct (h !! r) eqn:E; [|done]. by rewrite Hext, E by eauto.
Qed.

Lemma is_plugin_extends (h h' : heap) (f : loc) (c : Config) (pv : value) :
  is_plugin h f c pv -> extends h h' -> is_plugin h' f c pv.
Proof.
  intros (fo & Hf & Hrest) Hext. exists fo. split; [|done].
  by rewrite Hext by eauto.
Qed.

Lemma closure_config_plugin (h : heap) (f : loc) (c : Config) (pv : value) :
  is_plugin h f c pv -> closure_config h f = Some c.
Proof.
  intros (fo & Hf & _ & _ & Hslot). unfold closure_config.
  rewrite Hf. simpl. rewrite Hslot. by destruct c.
Qed.

Lemma prototype_of_plugin (h : heap) (f : loc) (c : Config) (pv : value) :
  is_plugin h f c pv -> prototype_of h f = Some pv.
Proof.
  intros (fo & Hf & _ & Hp & _). unfold prototype_of, own.
  rewrite Hf. simpl. by rewrite Hp.
Qed.

(** What is read back from an instance as the constructor leaves it. *)
Lemma instance_facts (h : heap) (this sg p : loc) (renderer : value)
      (c : Config) (d : Engine.Device) :
  h !! this
  = Some {| proto := VRef p;
            props := instance_props renderer c sg;
            slot := IsEngine (Engine.init d) |} ->
  h !! sg
  = Some {| proto := VNull; props := ∅;
            slot := IsShaderGenerator (cfg_vertex c) (cfg_fragment c) |} ->
  instance_config h this = Some c
  /\ engine_of h this = Some (Engine.init d)
  /\ proto <$> h !! this = Some (VRef p)
  /\ own h this "vertexSize" = Some (Data (cfg_vertexSize c))
  /\ own h this "geometryClass" = Some (Data (cfg_geometryClass c))
  /\ own h this "shaderGenerator" = Some (Data (VRef sg)).
Proof.
  intros Hthis Hsg.
  assert (Hvs : own h this "vertexSize" = Some (Data (cfg_vertexSize c))).
  { unfold own. rewrite Hthis.
    change (instance_props renderer c sg !! "vertexSize"
            = Some (Data (cfg_vertexSize c))).
    unfold instance_props. apply lookup_insert_eq. }
  assert (Hgc : own h this "geometryClass"
                = Some (Data (cfg_geometryClass c))).
  { unfold own. rewrite Hthis.
    change (instance_props renderer c sg !! "geometryClass"
            = Some (Data (cfg_geometryClass c))).
    unfold instance_props.
    rewrite lookup_insert_ne by done. apply lookup_insert_eq. }
  assert (Hsgp : own h this "shaderGenerator" = Some (Data (VRef sg))).
  { unfold own. rewrite Hthis.
    change (instance_props renderer c sg !! "shaderGenerator"
            = Some (Data (VRef sg))).
    unfold instance_props.
    rewrite !lookup_insert_ne by done. apply lookup_insert_eq. }
  unfold instance_config, engine_of. rewrite Hvs, Hgc, Hsgp, Hsg, Hthis.
  simpl. by destruct c.
Qed.

(** The option of a key decides its setting, and only its own: the
    value given, whatever it is, or else the documented default. *)
Lemma resolve_setting (options : option (gmap string value)) (k : key) :
  setting k (resolve options) = default (default_of k) (given options k).
Proof.
  unfold resolve, object_assign, given, field.
  destruct options as [o|]; simpl.
  - destruct k; simpl;
      (match goal with
       | |- context [(o ∪ defaults) !! ?n] =>
           destruct (o !! n) as [v|] eqn:E;
           [by rewrite (lookup_union_Some_l o defaults n v E)
           | rewrite (lookup_union_r o defaults n E) ]
       end); reflexivity.
  - destruct k; reflexivity.
Qed.

(** [create] and then [new] on a device, for an accepted template: both
    return, the constructor closes over the resolved configuration and the
    instance carries it. *)
Lemma create_then_construct (options : option (gmap string value))
      (h : heap) (p r : loc) (d : Engine.Device) :
  loaded h p -> is_device h r d ->
  accepts_template (cfg_fragment (resolve options)) = true ->
  exists f h1 this h2,
    create options h = Return f h1
    /\ construct f (VRef r) h1 = Return this h2
    /\ h !! f = None /\ h1 !! this = None
    /\ extends h h1 /\ extends h1 h2
    /\ is_plugin h1 f (resolve options) (VRef p)
    /\ instance_config h2 this = Some (resolve options)
    /\ engine_of h2 this = Some (Engine.init d)
    /\ proto <$> h2 !! this = Some (VRef p)
    /\ own h2 this "vertexSize" = Some (Data (cfg_vertexSize (resolve options)))
    /\ own h2 this "geometryClass"
       = Some (Data (cfg_geometryClass (resolve options))).
Proof.
  intros Hl Hd Hacc.
  destruct (create_returns options h)
    as (f & h1 & pv & Hc & Hf & Hext & Hplug & Hpv & _).
  rewrite (Hpv p (loaded_base h p Hl)) in Hplug.
  destruct (construct_returns f p r (resolve options) d h1
              (loaded_extends _ _ _ Hl Hext) Hplug
              (is_device_extends _ _ _ _ Hd Hext) Hacc)
    as (this & sg & h2 & Hn & Hthis & Hsg & Hext2 & Ht2 & Hsg2).
  destruct (instance_facts h2 this sg p _ (resolve options) d Ht2 Hsg2)
    as (? & ? & ? & ? & ? & ?).
  exists f, h1, this, h2. repeat split; done.
Qed.

(** [create] and then [new] on a device, for a fragment source that is
    not an accepted template: [create] returns all the same and the
    constructor raises. *)
Lemma create_then_reject (options : option (gmap string value))
      (h : heap) (p r : loc) (d : Engine.Device) :
  loaded h p -> is_device h r d ->
  accepts_template (cfg_fragment (resolve options)) = false ->
  exists f h1 e h2,
    create options h = Return f h1
    /\ construct f (VRef r) h1 = Throw e h2
    /\ is_plugin h1 f (resolve options) (VRef p).
Proof.
  intros Hl Hd Hacc.
  destruct (create_returns options h)
    as (f & h1 & pv & Hc & Hf & Hext & Hplug & Hpv & _).
  rewrite (Hpv p (loaded_base h p Hl)) in Hplug.
  destruct (construct_throws f p r (resolve options) d h1
              (loaded_extends _ _ _ Hl Hext) Hplug
              (is_device_extends _ _ _ _ Hd Hext) Hacc)
    as (e & h2 & Hn & _).
  by exists f, h1, e, h2.
Qed.

Lemma default_accepted : accepts_template (cfg_fragment default_config) = true.
Proof. exact defaultFragment_template. Qed.

Lemma create_no_options (h : heap) : create None h = create (Some ∅) h.
Proof.
  unfold create, resolve, object_assign.
  by rewrite (left_id_L ∅ (∪) defaults).
Qed.

Lemma resolve_none : resolve None = default_config.
Proof. reflexivity. Qed.

(** Evaluation of the module: the class object is allocated with its
    accessors, and the exported constructor is what [create()]
    returns. *)
Lemma load_module_returns (h : heap) :
  exists cls br h0 h1 clso pv,
    load_module h = Return (cls, br) h1
    /\ create None h0 = Return br h1
    /\ extends h h0 /\ extends h0 h1
    /\ h1 !! cls = Some clso
    /\ proto clso = VNull
    /\ props clso !! "defaultVertexSrc"
       = Some (Accessor (Some GetDefaultVertexSrc) None)
    /\ props clso !! "defaultFragmentTemplate"
       = Some (Accessor (Some GetDefaultFragmentTemplate) None)
    /\ is_plugin h1 br default_config pv
    /\ forall p, own h BaseBatchRenderer "prototype" = Some (Data (VRef p)) ->
                 pv = VRef p.
Proof.
  unfold load_module. rewrite !bind_alloc.
  set (cf := fresh (dom h)).
  set (h' := <[cf := _]> h).
  set (cls := fresh (dom h')).
  set (clso := {| proto := VNull; props := _; slot := _ |}).
  set (h0 := <[cls := clso]> h').
  assert (Hext0 : extends h h0).
  { apply extends_insert_fresh.
    - apply extends_fresh. apply extends_insert_fresh;
        [apply fresh_lookup | apply extends_refl].
    - apply extends_insert_fresh; [apply fresh_lookup | apply extends_refl]. }
  destruct (create_returns None h0)
    as (br & h1 & pv & Hc & Hbr & Hext & Hplug & Hpv & _).
  rewrite (bind_return _ _ h0 h1 br Hc).
  assert (Hcls : h0 !! cls = Some clso) by apply lookup_insert_eq.
  exists cls, br, h0, h1, clso, pv. split; [reflexivity |].
  split; [done |]. split; [done |]. split; [done |].
  split; [by rewrite Hext by eauto |].
  split; [done |]. split; [done |]. split; [done |].
  split; [by rewrite <- resolve_none |].
  intros p Hown. apply Hpv.
  unfold own in *. destruct (h !! BaseBatchRenderer) eqn:E'; [|done].
  by rewrite Hext0, E' by eauto.
Qed.

(** Two calls of [create], one after the other. *)
Lemma create_twice (c1 c2 : option (gmap string value)) (h : heap) (p : loc) :
  loaded h p ->
  exists f1 h1 f2 h2,
    create c1 h = Return f1 h1 /\ create c2 h1 = Return f2 h2
    /\ f1 <> f2 /\ extends h h1 /\ extends h1 h2
    /\ is_plugin h2 f1 (resolve c1) (VRef p)
    /\ is_plugin h2 f2 (resolve c2) (VRef p).
Proof.
  intros Hl.
  destruct (create_returns c1 h)
    as (f1 & h1 & pv1 & Hc1 & Hf1 & Hext1 & Hplug1 & Hpv1 & _).
  rewrite (Hpv1 p (loaded_base h p Hl)) in Hplug1.
  pose proof (loaded_extends _ _ _ Hl Hext1) as Hl1.
  destruct (create_returns c2 h1)
    as (f2 & h2 & pv2 & Hc2 & Hf2 & Hext2 & Hplug2 & Hpv2 & _).
  rewrite (Hpv2 p (loaded_base h1 p Hl1)) in Hplug2.
  exists f1, h1, f2, h2. repeat split; try done.
  - intros ->. destruct Hplug1 as (fo & Hfo & _). congruence.
  - by apply (is_plugin_extends h1).
Qed.

(** [create], and what the constructor it returns does on a device
    handle: an instance for an accepted template, an exception for any
    other fragment source. *)
Lemma create_and_construct (options : option (gmap string value))
      (h : heap) (p r : loc) (d : Engine.Device) :
  loaded h p -> is_device h r d ->
  exists f h1,
    create options h = Return f h1
    /\ h !! f = None /\ extends h h1
    /\ is_plugin h1 f (resolve options) (VRef p)
    /\ (accepts_template (cfg_fragment (resolve options)) = true ->
        exists this sg h2,
          construct f (VRef r) h1 = Return this h2
          /\ h1 !! this = None /\ h1 !! sg = None /\ extends h1 h2
          /\ h2 !! this
             = Some {| proto := VRef p;
                       props := instance_props (VRef r) (resolve options) sg;
                       slot := IsEngine (Engine.init d) |}
          /\ h2 !! sg
             = Some {| proto := VNull; props := ∅;
                       slot := IsShaderGenerator
                                 (cfg_vertex (resolve options))
                                 (cfg_fragment (resolve options)) |})
    /\ (accepts_template (cfg_fragment (resolve options)) = false ->
        exists e h2, construct f (VRef r) h1 = Throw e h2 /\ extends h1 h2).
Proof.
  intros Hl Hd.
  destruct (create_returns options h)
    as (f & h1 & pv & Hc & Hf & Hext & Hplug & Hpv & _).
  rewrite (Hpv p (loaded_base h p Hl)) in Hplug.
  exists f, h1. split; [done |]. split; [done |]. split; [done |].
  split; [done |]. split; intros Hacc.
  - exact (construct_returns f p r (resolve options) d h1
             (loaded_extends _ _ _ Hl Hext) Hplug
             (is_device_extends _ _ _ _ Hd Hext) Hacc).
  - exact (construct_throws f p r (resolve options) d h1
             (loaded_extends _ _ _ Hl Hext) Hplug
             (is_device_extends _ _ _ _ Hd Hext) Hacc).
Qed.

Lemma extends_trans (h1 h2 h3 : heap) :
  extends h1 h2 -> extends h2 h3 -> extends h1 h3.
Proof.
  intros H12 H23 l Hs. rewrite H23, H12; [done | done |]. by rewrite H12.
Qed.

End WithImports.

(** *** The sample setting *)

Lemma sample_loaded : @loaded sample_imports sample_heap 1.
Proof.
  split; [reflexivity |].
  exists {| proto := VNull; props := {[ "constructor" := Data (VRef 0) ]};
            slot := IsPlain |}.
  split; [reflexivity |]. split; [reflexivity |].
  by apply map_Forall_singleton.
Defined.

Lemma sample_is_device : is_device sample_heap 3 sample_device.
Proof. reflexivity. Defined.

Section Claims.
Context `{!Imports}.

(** C1. For every options value, on a heap where the imported classes
    are loaded, [create] returns a constructor, and every setting the
    constructor closes over is the option given for its key, or, when the
    key is absent, the documented default of that key: [defaultVertex] for
    [vertex], [defaultFragment] for [fragment], 6 for [vertexSize] and
    [BatchGeometry] for [geometryClass]. On a device handle the constructor
    initializes its instance with exactly these settings; it returns one
    whenever the fragment source is an accepted template, and raises
    otherwise. *)
Theorem create_applies_defaults
        (options : option (gmap string value))
        (h : heap) (p r : loc) (d : Engine.Device) :
  loaded h p -> is_device h r d ->
  exists f h1,
    create options h = Return f h1
    /\ closure_config h1 f = Some (resolve options)
    /\ (forall k, setting k (resolve options)
                  = match given options k with
                    | Some v => v
                    | None => default_of k
                    end)
    /\ (accepts_template (cfg_fragment (resolve options)) = true ->
        exists this h2,
          construct f (VRef r) h1 = Return this h2
          /\ instance_config h2 this = Some (resolve options))
    /\ (accepts_template (cfg_fragment (resolve options)) = false ->
        exists e h2, construct f (VRef r) h1 = Throw e h2).
Proof.
  intros Hl Hd.
  destruct (create_and_construct options h p r d Hl Hd)
    as (f & h1 & Hc & _ & _ & Hplug & Hyes & Hno).
  exists f, h1. split; [done |].
  split; [by apply (closure_config_plugin _ _ _ _ Hplug) |].
  split; [intros k; rewrite resolve_setting; by destruct (given options k) |].
  split; intros Hacc.
  - destruct (Hyes Hacc) as (this & sg & h2 & Hn & _ & _ & _ & Ht & Hsg).
    destruct (instance_facts h2 this sg p _ (resolve options) d Ht Hsg)
      as (Hcfg & _).
    by exists this, h2.
  - destruct (Hno Hacc) as (e & h2 & Hn & _). by exists e, h2.
Qed.

(** C4. After the module is evaluated, [defaultVertexSrc] and
    [defaultFragmentTemplate] are accessor properties of the class with a
    getter and no setter; reading them gives the imported sources, a
    write is rejected and leaves the heap as it is, and these sources
    are the settings [create] resolves when the option is omitted. *)
Theorem default_sources_are_read_only (h : heap) :
  exists cls br h1,
    load_module h = Return (cls, br) h1
    /\ own h1 cls "defaultVertexSrc"
       = Some (Accessor (Some GetDefaultVertexSrc) None)
    /\ own h1 cls "defaultFragmentTemplate"
       = Some (Accessor (Some GetDefaultFragmentTemplate) None)
    /\ get_prop (VRef cls) "defaultVertexSrc" h1
       = Return (VStr defaultVertex) h1
    /\ get_prop (VRef cls) "defaultFragmentTemplate" h1
       = Return (VStr defaultFragment) h1
    /\ (forall v, exists e, set_prop cls "defaultVertexSrc" v h1 = Throw e h1)
    /\ (forall v, exists e,
           set_prop cls "defaultFragmentTemplate" v h1 = Throw e h1)
    /\ (forall options, given options KVertex = None ->
           cfg_vertex (resolve options) = VStr defaultVertex)
    /\ (forall options, given options KFragment = None ->
           cfg_fragment (resolve options) = VStr defaultFragment).
Proof.
  destruct (load_module_returns h)
    as (cls & br & h0 & h1 & clso & pv & Hload & _ & _ & _ & Hcls & _
        & Hv & Hf & _).
  exists cls, br, h1. split; [done |].
  split; [unfold own; by rewrite Hcls |].
  split; [unfold own; by rewrite Hcls |].
  split; [unfold get_prop;
          by rewrite (find_property_own _ h1 cls clso _ _ Hcls Hv) |].
  split; [unfold get_prop;
          by rewrite (find_property_own _ h1 cls clso _ _ Hcls Hf) |].
  split; [intros v; eexists; unfold set_prop; rewrite Hcls;
          by rewrite (find_property_own _ h1 cls clso _ _ Hcls Hv) |].
  split; [intros v; eexists; unfold set_prop; rewrite Hcls;
          by rewrite (find_property_own _ h1 cls clso _ _ Hcls Hf) |].
  split; intros options Hg.
  - pose proof (resolve_setting options KVertex) as E.
    by rewrite Hg in E.
  - pose proof (resolve_setting options KFragment) as E.
    by rewrite Hg in E.
Qed.

(** C5. Two constructors made from two configurations with accepted
    templates, and an instance of each: every instance carries the
    configuration of the [create] call that made its constructor, and
    keeps it through the construction of the other instance and through
    every later trace of creating constructors, constructing instances of
    any of them (whether that returns or raises), rendering and
    flushing. *)
Theorem constructors_do_not_interfere
        (c1 c2 : option (gmap string value))
        (h : heap) (p r1 r2 : loc) (d1 d2 : Engine.Device) :
  loaded h p -> is_device h r1 d1 -> is_device h r2 d2 ->
  accepts_template (cfg_fragment (resolve c1)) = true ->
  accepts_template (cfg_fragment (resolve c2)) = true ->
  exists f1 h1 f2 h2 i1 h3 i2 h4,
    create c1 h = Return f1 h1
    /\ create c2 h1 = Return f2 h2
    /\ f1 <> f2
    /\ construct f1 (VRef r1) h2 = Return i1 h3
    /\ construct f2 (VRef r2) h3 = Return i2 h4
    /\ i1 <> i2
    /\ instance_config h3 i1 = Some (resolve c1)
    /\ instance_config h4 i1 = Some (resolve c1)
    /\ instance_config h4 i2 = Some (resolve c2)
    /\ forall trace,
         instance_config (heap_of (perform_all trace h4)) i1
         = Some (resolve c1)
         /\ instance_config (heap_of (perform_all trace h4)) i2
            = Some (resolve c2).
Proof.
  intros Hl Hd1 Hd2 Hacc1 Hacc2.
  destruct (create_twice c1 c2 h p Hl)
    as (f1 & h1 & f2 & h2 & Hc1 & Hc2 & Hne & Hext1 & Hext2 & Hp1 & Hp2).
  pose proof (extends_trans _ _ _ Hext1 Hext2) as Hext.
  destruct (construct_returns f1 p r1 (resolve c1) d1 h2
              (loaded_extends _ _ _ Hl Hext) Hp1
              (is_device_extends _ _ _ _ Hd1 Hext) Hacc1)
    as (i1 & sg1 & h3 & Hn1 & Hi1 & _ & Hext3 & Ht1 & Hsg1).
  destruct (instance_facts h3 i1 sg1 p _ (resolve c1) d1 Ht1 Hsg1)
    as (Hcfg1 & _).
  pose proof (extends_trans _ _ _ Hext Hext3) as Hext'.
  destruct (construct_returns f2 p r2 (resolve c2) d2 h3
              (loaded_extends _ _ _ Hl Hext')
              (is_plugin_extends _ _ _ _ _ Hp2 Hext3)
              (is_device_extends _ _ _ _ Hd2 Hext') Hacc2)
    as (i2 & sg2 & h4 & Hn2 & Hi2 & _ & Hext4 & Ht2 & Hsg2).
  destruct (instance_facts h4 i2 sg2 p _ (resolve c2) d2 Ht2 Hsg2)
    as (Hcfg2 & _).
  pose proof (instance_config_preserved h3 h4 i1 _
                (extends_preserves _ _ Hext4) Hcfg1) as Hcfg1'.
  exists f1, h1, f2, h2, i1, h3, i2, h4.
  repeat split; try done.
  - intros ->. congruence.
  - by apply (instance_config_preserved h4 _ i1 _
                (preserves_perform_all trace h4)).
  - by apply (instance_config_preserved h4 _ i2 _
                (preserves_perform_all trace h4)).
Qed.

(** C6, as the code has it. Two calls of [create] return two function
    objects whose [prototype] is one and the same object, the prototype
    of the base renderer itself; no call changes that object or the base
    class. Whenever the first constructor returns an instance, the
    instance has that object as its prototype and the configuration of its
    constructor as its own properties, and the base prototype is still
    unchanged; it returns one for every accepted template. *)
Theorem constructors_share_base_prototype
        (c1 c2 : option (gmap string value))
        (h : heap) (p r : loc) (d : Engine.Device) :
  loaded h p -> is_device h r d ->
  exists f1 h1 f2 h2,
    create c1 h = Return f1 h1
    /\ create c2 h1 = Return f2 h2
    /\ f1 <> f2
    /\ prototype_of h2 f1 = Some (VRef p)
    /\ prototype_of h2 f2 = Some (VRef p)
    /\ prototype_of h2 BaseBatchRenderer = Some (VRef p)
    /\ h2 !! p = h !! p
    /\ h2 !! BaseBatchRenderer = h !! BaseBatchRenderer
    /\ (forall this h3,
          construct f1 (VRef r) h2 = Return this h3 ->
          proto <$> h3 !! this = Some (VRef p)
          /\ instance_config h3 this = Some (resolve c1)
          /\ h3 !! p = h !! p)
    /\ (accepts_template (cfg_fragment (resolve c1)) = true ->
        exists this h3, construct f1 (VRef r) h2 = Return this h3).
Proof.
  intros Hl Hd.
  destruct (create_twice c1 c2 h p Hl)
    as (f1 & h1 & f2 & h2 & Hc1 & Hc2 & Hne & Hext1 & Hext2 & Hp1 & Hp2).
  pose proof (extends_trans _ _ _ Hext1 Hext2) as Hext.
  pose proof (loaded_extends _ _ _ Hl Hext) as Hl2.
  pose proof (is_device_extends _ _ _ _ Hd Hext) as Hd2.
  pose proof Hl as [Hbase (po & Hpo & _)].
  assert (Hb : is_Some (h !! BaseBatchRenderer)).
  { unfold own in Hbase. by destruct (h !! BaseBatchRenderer); eauto. }
  assert (Hinst : accepts_template (cfg_fragment (resolve c1)) = true ->
            exists this h3,
              construct f1 (VRef r) h2 = Return this h3
              /\ proto <$> h3 !! this = Some (VRef p)
              /\ instance_config h3 this = Some (resolve c1)
              /\ h3 !! p = h !! p).
  { intros Hacc.
    destruct (construct_returns f1 p r (resolve c1) d h2 Hl2 Hp1 Hd2 Hacc)
      as (this & sg & h3 & Hn & _ & _ & Hext3 & Ht & Hsg).
    destruct (instance_facts h3 this sg p _ (resolve c1) d Ht Hsg)
      as (Hcfg & _ & Hproto & _).
    exists this, h3. repeat split; try done.
    rewrite Hext3, Hext; eauto. rewrite Hext; eauto. }
  exists f1, h1, f2, h2.
  split; [done |]. split; [done |]. split; [done |].
  split; [by apply (prototype_of_plugin _ _ _ _ Hp1) |].
  split; [by apply (prototype_of_plugin _ _ _ _ Hp2) |].
  split; [unfold prototype_of; by rewrite (loaded_base _ _ Hl2) |].
  split; [apply Hext; eauto |].
  split; [by apply Hext |].
  split.
  - intros this h3 Hret.
    destruct (Hinst (construct_returned f1 p r this (resolve c1) d h2 h3
                       Hl2 Hp1 Hd2 Hret))
      as (this' & h3' & Hn & Hproto & Hcfg & Hpp).
    rewrite Hret in Hn. injection Hn as <- <-. done.
  - intros Hacc. destruct (Hinst Hacc) as (this & h3 & Hn & _). eauto.
Qed.

(** C7, as the code has it. Neither [create] nor the constructor
    compares [vertexSize] with the geometry class or the shader. [create]
    returns for every configuration; on a device handle the constructor
    raises exactly when the fragment source is not an accepted template,
    whatever [vertexSize] and [geometryClass] are, and an instance it
    returns holds the configured [vertexSize] and [geometryClass] as they
    were given, mismatched or not. *)
Theorem vertex_size_is_not_checked
        (options : option (gmap string value))
        (h : heap) (p r : loc) (d : Engine.Device) :
  loaded h p -> is_device h r d ->
  exists f h1,
    create options h = Return f h1
    /\ (accepts_template (cfg_fragment (resolve options)) = true ->
        exists this h2,
          construct f (VRef r) h1 = Return this h2
          /\ own h2 this "vertexSize"
             = Some (Data (cfg_vertexSize (resolve options)))
          /\ own h2 this "geometryClass"
             = Some (Data (cfg_geometryClass (resolve options))))
    /\ (accepts_template (cfg_fragment (resolve options)) = false ->
        exists e h2, construct f (VRef r) h1 = Throw e h2).
Proof.
  intros Hl Hd.
  destruct (create_and_construct options h p r d Hl Hd)
    as (f & h1 & Hc & _ & _ & _ & Hyes & Hno).
  exists f, h1. split; [done |]. split; intros Hacc.
  - destruct (Hyes Hacc) as (this & sg & h2 & Hn & _ & _ & _ & Ht & Hsg).
    destruct (instance_facts h2 this sg p _ (resolve options) d Ht Hsg)
      as (_ & _ & _ & Hvs & Hg & _).
    by exists this, h2.
  - destruct (Hno Hacc) as (e & h2 & Hn & _). by exists e, h2.
Qed.


(** C9. An option key that is present with the value [undefined]
    overrides the default: the constructor closes over [undefined] for
    that setting, while the keys that are absent keep their defaults. An
    instance the constructor returns carries [undefined] for the setting;
    when the key is [fragment] the constructor passes [undefined] to the
    shader generator and raises. *)
Theorem undefined_option_overrides_default
        (o : gmap string value) (k : key)
        (h : heap) (p r : loc) (d : Engine.Device) :
  loaded h p -> is_device h r d ->
  o !! key_name k = Some VUndefined ->
  exists f h1,
    create (Some o) h = Return f h1
    /\ closure_config h1 f = Some (resolve (Some o))
    /\ setting k (resolve (Some o)) = VUndefined
    /\ (forall k', o !! key_name k' = None ->
                   setting k' (resolve (Some o)) = default_of k')
    /\ (accepts_template (cfg_fragment (resolve (Some o))) = true ->
        exists this h2,
          construct f (VRef r) h1 = Return this h2
          /\ instance_config h2 this = Some (resolve (Some o)))
    /\ (k = KFragment -> exists e h2, construct f (VRef r) h1 = Throw e h2).
Proof.
  intros Hl Hd Hk.
  destruct (create_and_construct (Some o) h p r d Hl Hd)
    as (f & h1 & Hc & _ & _ & Hplug & Hyes & Hno).
  assert (Hset : setting k (resolve (Some o)) = VUndefined).
  { rewrite resolve_setting. simpl. by rewrite Hk. }
  exists f, h1. split; [done |].
  split; [by apply (closure_config_plugin _ _ _ _ Hplug) |].
  split; [done |]. split; [|split].
  - intros k' Hk'. rewrite resolve_setting. simpl. by rewrite Hk'.
  - intros Hacc.
    destruct (Hyes Hacc) as (this & sg & h2 & Hn & _ & _ & _ & Ht & Hsg).
    destruct (instance_facts h2 this sg p _ (resolve (Some o)) d Ht Hsg)
      as (Hcfg & _).
    by exists this, h2.
  - intros ->. cbn [setting] in Hset.
    destruct Hno as (e & h2 & Hn & _); [by rewrite Hset |]. by exists e, h2.
Qed.

(** C10. Evaluating the module exports as [BatchRenderer] the
    constructor that [create()] returns: it closes over the default
    vertex source, the default fragment template, the vertex size 6 and
    [BatchGeometry], its instances carry them, and [create] without an
    argument does what [create] does on an empty options object. *)
Theorem exported_BatchRenderer_is_default
        (h : heap) (p r : loc) (d : Engine.Device) :
  loaded h p -> is_device h r d ->
  exists cls br h1,
    load_module h = Return (cls, br) h1
    /\ (exists h0, create None h0 = Return br h1)
    /\ closure_config h1 br = Some default_config
    /\ (exists this h2,
           construct br (VRef r) h1 = Return this h2
           /\ instance_config h2 this = Some default_config)
    /\ forall h', create None h' = create (Some ∅) h'.
Proof.
  intros Hl Hd.
  destruct (load_module_returns h)
    as (cls & br & h0 & h1 & clso & pv & Hload & Hc & Hext0 & Hext1 & _ & _
        & _ & _ & Hplug & Hpv).
  rewrite (Hpv p (loaded_base h p Hl)) in Hplug.
  assert (Hext : extends h h1).
  { intros l Hs. rewrite Hext1, Hext0; [done | done |]. by rewrite Hext0. }
  destruct (construct_returns br p r default_config d h1
              (loaded_extends _ _ _ Hl Hext) Hplug
              (is_device_extends _ _ _ _ Hd Hext) default_accepted)
    as (this & sg & h2 & Hn & _ & _ & _ & Ht & Hsg).
  destruct (instance_facts h2 this sg p _ default_config d Ht Hsg)
    as (Hcfg & _).
  exists cls, br, h1. split; [done |]. split; [by exists h0 |].
  split; [by apply (closure_config_plugin _ _ _ _ Hplug) |].
  split; [by exists this, h2 |].
  apply create_no_options.
Qed.

End Claims.

(** *** The theorems at the sample setting *)

(** The configuration of the example in the documentation: only the
    fragment template is given. *)
Lemma create_applies_defaults_witness :
  exists f h1 this h2,
    @create sample_imports (Some {[ "fragment" := VStr invert_fragment ]})
            sample_heap = Return f h1
    /\ closure_config h1 f
       = Some (@resolve sample_imports
                 (Some {[ "fragment" := VStr invert_fragment ]}))
    /\ @construct sample_imports f (VRef 3) h1 = Return this h2
    /\ instance_config h2 this
       = Some (@resolve sample_imports
                 (Some {[ "fragment" := VStr invert_fragment ]})).
Proof.
  destruct (@create_applies_defaults sample_imports
              (Some {[ "fragment" := VStr invert_fragment ]})
              sample_heap 1 3 sample_device sample_loaded eq_refl)
    as (f & h1 & Hc & Hcl & _ & Hyes & _).
  destruct (Hyes eq_refl) as (this & h2 & Hn & Hcfg).
  exists f, h1, this, h2.
  split; [exact Hc |]. split; [exact Hcl |]. split; [exact Hn | exact Hcfg].
Defined.

Lemma default_sources_are_read_only_witness :
  exists cls br h1,
    @load_module sample_imports sample_heap = Return (cls, br) h1
    /\ @get_prop sample_imports (VRef cls) "defaultVertexSrc" h1
       = Return (VStr (@defaultVertex sample_imports)) h1
    /\ forall v, exists e,
         set_prop cls "defaultVertexSrc" v h1 = Throw e h1.
Proof.
  destruct (@default_sources_are_read_only sample_imports sample_heap)
    as (cls & br & h1 & Hload & _ & _ & Hget & _ & Hset & _).
  exists cls, br, h1. split; [exact Hload |]. split; [exact Hget | exact Hset].
Defined.

Lemma constructors_do_not_interfere_witness :
  exists f1 h1 f2 h2 i1 h3 i2 h4,
    @create sample_imports None sample_heap = Return f1 h1
    /\ @create sample_imports (Some {[ "vertexSize" := VNum 8 ]}) h1
       = Return f2 h2
    /\ @construct sample_imports f1 (VRef 3) h2 = Return i1 h3
    /\ @construct sample_imports f2 (VRef 3) h3 = Return i2 h4
    /\ forall trace,
         instance_config (heap_of (@perform_all sample_imports trace h4)) i1
         = Some (@resolve sample_imports None).
Proof.
  assert (Hacc : accepts_template
                   (cfg_fragment
                      (@resolve sample_imports
                         (Some {[ "vertexSize" := VNum 8 ]}))) = true)
    by (vm_compute; reflexivity).
  destruct (@constructors_do_not_interfere sample_imports
              None (Some {[ "vertexSize" := VNum 8 ]})
              sample_heap 1 3 3 sample_device sample_device
              sample_loaded eq_refl eq_refl eq_refl Hacc)
    as (f1 & h1 & f2 & h2 & i1 & h3 & i2 & h4 & Hc1 & Hc2 & _ & Hn1 & Hn2
        & _ & _ & _ & _ & Htrace).
  exists f1, h1, f2, h2, i1, h3, i2, h4.
  split; [exact Hc1 |]. split; [exact Hc2 |]. split; [exact Hn1 |].
  split; [exact Hn2 |]. intros trace. exact (proj1 (Htrace trace)).
Defined.

Lemma constructors_share_base_prototype_witness :
  exists f1 h1 f2 h2 this h3,
    @create sample_imports None sample_heap = Return f1 h1
    /\ @create sample_imports
               (Some {[ "fragment" := VStr invert_fragment ]}) h1
       = Return f2 h2
    /\ f1 <> f2
    /\ prototype_of h2 f1 = Some (VRef 1)
    /\ prototype_of h2 f2 = Some (VRef 1)
    /\ @construct sample_imports f1 (VRef 3) h2 = Return this h3
    /\ proto <$> h3 !! this = Some (VRef 1).
Proof.
  destruct (@constructors_share_base_prototype sample_imports
              None (Some {[ "fragment" := VStr invert_fragment ]})
              sample_heap 1 3 sample_device sample_loaded eq_refl)
    as (f1 & h1 & f2 & h2 & Hc1 & Hc2 & Hne & Hp1 & Hp2 & _ & _ & _
        & Hinst & Hyes).
  destruct (Hyes eq_refl) as (this & h3 & Hn).
  destruct (Hinst this h3 Hn) as (Hproto & _).
  exists f1, h1, f2, h2, this, h3.
  split; [exact Hc1 |]. split; [exact Hc2 |]. split; [exact Hne |].
  split; [exact Hp1 |]. split; [exact Hp2 |]. split; [exact Hn | exact Hproto].
Defined.

(** C6 as stated fails: the two constructors have the same prototype
    object. *)
Lemma prototypes_are_not_distinct :
  ~ @distinct_prototypes sample_imports sample_heap None
      (Some {[ "fragment" := VStr invert_fragment ]}).
Proof.
  intros H.
  destruct (@create_twice sample_imports
              None (Some {[ "fragment" := VStr invert_fragment ]})
              sample_heap 1 sample_loaded)
    as (f1 & h1 & f2 & h2 & Hc1 & Hc2 & _ & _ & _ & Hp1 & Hp2).
  destruct (H f1 h1 f2 h2 Hc1 Hc2) as [Hne _]. apply Hne.
  by rewrite (prototype_of_plugin _ _ _ _ Hp1),
             (prototype_of_plugin _ _ _ _ Hp2).
Qed.

Lemma vertex_size_is_not_checked_witness :
  exists f h1 this h2,
    @create sample_imports (Some {[ "vertexSize" := VNum 7 ]}) sample_heap
    = Return f h1
    /\ @construct sample_imports f (VRef 3) h1 = Return this h2
    /\ own h2 this "vertexSize" = Some (Data (VNum 7))
    /\ own h2 this "geometryClass" = Some (Data (VRef 2)).
Proof.
  destruct (@vertex_size_is_not_checked sample_imports
              (Some {[ "vertexSize" := VNum 7 ]})
              sample_heap 1 3 sample_device sample_loaded eq_refl)
    as (f & h1 & Hc & Hyes & _).
  destruct (Hyes eq_refl) as (this & h2 & Hn & Hvs & Hg).
  exists f, h1, this, h2.
  split; [exact Hc |]. split; [exact Hn |]. split; [exact Hvs | exact Hg].
Defined.

(** C7 as stated fails: a vertex size of 7 with the standard layout of
    stride 6 is mismatched, and neither [create] nor the constructor
    throws. *)
Lemma mismatch_is_not_signaled :
  ~ @mismatch_signaled sample_imports sample_heap
      (Some {[ "vertexSize" := VNum 7 ]}) (VRef 3).
Proof.
  intros H.
  assert (Hacc : accepts_template
                   (cfg_fragment
                      (@resolve sample_imports
                         (Some {[ "vertexSize" := VNum 7 ]}))) = true)
    by (vm_compute; reflexivity).
  destruct (@create_then_construct sample_imports
              (Some {[ "vertexSize" := VNum 7 ]})
              sample_heap 1 3 sample_device sample_loaded eq_refl Hacc)
    as (f & h1 & this & h2 & Hc & Hn & _).
  destruct H as [(e & h' & Hc') | (f' & h1' & e & h' & Hc' & Hn')].
  - exists 6. split; [reflexivity | discriminate].
  - congruence.
  - rewrite Hc in Hc'. injection Hc' as <- <-. congruence.
Qed.


Lemma undefined_option_overrides_default_witness :
  exists f h1 this h2,
    @create sample_imports (Some {[ "vertexSize" := VUndefined ]}) sample_heap
    = Return f h1
    /\ cfg_vertexSize (@resolve sample_imports
                         (Some {[ "vertexSize" := VUndefined ]}))
       = VUndefined
    /\ @construct sample_imports f (VRef 3) h1 = Return this h2
    /\ instance_config h2 this
       = Some (@resolve sample_imports
                 (Some {[ "vertexSize" := VUndefined ]})).
Proof.
  assert (Hgiven : ({[ "vertexSize" := VUndefined ]} : gmap string value)
                     !! key_name KVertexSize = Some VUndefined)
    by reflexivity.
  destruct (@undefined_option_overrides_default sample_imports
              {[ "vertexSize" := VUndefined ]} KVertexSize
              sample_heap 1 3 sample_device sample_loaded eq_refl Hgiven)
    as (f & h1 & Hc & _ & Hk & _ & Hyes & _).
  destruct (Hyes eq_refl) as (this & h2 & Hn & Hcfg).
  exists f, h1, this, h2.
  split; [exact Hc |]. split; [exact Hk |]. split; [exact Hn | exact Hcfg].
Defined.

Lemma exported_BatchRenderer_is_default_witness :
  exists cls br h1,
    @load_module sample_imports sample_heap = Return (cls, br) h1
    /\ closure_config h1 br = Some (@default_config sample_imports).
Proof.
  destruct (@exported_BatchRenderer_is_default sample_imports
              sample_heap 1 3 sample_device sample_loaded eq_refl)
    as (cls & br & h1 & Hload & _ & Hcl & _).
  exists cls, br, h1. split; [exact Hload | exact Hcl].
Defined.

(** The model on the sample setting, evaluated. *)
Example sample_default_plugin :
  match @create sample_imports None sample_heap with
  | Return f h => (f, closure_config h f, prototype_of h f)
  | Throw _ _ => (0, None, None)
  end
  = (4, Some (@default_config sample_imports), Some (VRef 1)).
Proof. vm_compute. reflexivity. Qed.

Example sample_no_device :
  match @create sample_imports None sample_heap with
  | Return f h =>
      match @construct sample_imports f VUndefined h with
      | Throw e _ => Some e
      | Return _ _ => None
      end
  | Throw _ _ => None
  end
  = Some (Template.TypeError "renderer is not a device").
Proof. vm_compute. reflexivity. Qed.

(** A fragment source without the placeholders is refused when the
    constructor runs, not when [create] does. *)
Example sample_plain_fragment :
  match @create sample_imports
          (Some {[ "fragment"
                   := VStr "void main(void){ gl_FragColor = vec4(1.0); }" ]})
          sample_heap with
  | Return f h =>
      match @construct sample_imports f (VRef 3) h with
      | Throw e _ => Some e
      | Return _ _ => None
      end
  | Throw _ _ => None
  end
  = Some (Template.ConfigurationError
            "Fragment template must contain %count%").
Proof. vm_compute. reflexivity. Qed.

Example sample_undefined_fragment :
  match @create sample_imports (Some {[ "fragment" := VUndefined ]})
          sample_heap with
  | Return f h =>
      match @construct sample_imports f (VRef 3) h with
      | Throw e _ => Some e
      | Return _ _ => None
      end
  | Throw _ _ => None
  end
  = Some (Template.TypeError "fragment template is not a string").
Proof. vm_compute. reflexivity. Qed.

End FactoryFacts.

(** ** More on the factory: what its callers can rely on *)

Module FactoryUse.
Import Js Factory Scene FactoryFacts.

Lemma size_positive (h : heap) (l : loc) (o : object) :
  h !! l = Some o -> exists n, size h = S n.
Proof.
  intros Hl. destruct (size h) as [|n] eqn:E; [|by exists n].
  apply map_size_empty_iff in E. subst. by rewrite lookup_empty in Hl.
Qed.

Section WithImports.
Context `{!Imports}.

(** The names an instance has no property of its own for: all but the
    fields the base constructor and the plugin constructor assign. *)
Lemma lookup_other_field (renderer : value) (c : Config) (sg : loc) (k : string) :
  k <> "shaderGenerator" -> k <> "geometryClass" -> k <> "vertexSize" ->
  base_fields renderer !! k = None ->
  instance_props renderer c sg !! k = None.
Proof.
  intros H1 H2 H3 Hb. unfold instance_props.
  rewrite !lookup_insert_ne by done.
  rewrite (right_id_L ∅ (∪)). by rewrite lookup_fmap, Hb.
Qed.

(** A property that an object lacks and its prototype has as a data
    property is read from the prototype. *)
Lemma get_prop_inherited (h : heap) (this p : loc) (o po : object)
      (k : string) (x : value) :
  h !! this = Some o -> props o !! k = None -> proto o = VRef p ->
  h !! p = Some po -> props po !! k = Some (Data x) ->
  get_prop (VRef this) k h = Return x h.
Proof.
  intros Hthis Hk Hproto Hp Hx. unfold get_prop.
  destruct (size_positive h this o Hthis) as [n ->].
  cbn [find_property]. by rewrite Hthis, Hk, Hproto, Hp, Hx.
Qed.

(** A write to an object of data properties at the end of its chain. *)
Lemma set_prop_plain (h : heap) (p : loc) (po : object) (k : string) (v : value) :
  h !! p = Some po -> proto po = VNull ->
  map_Forall (fun _ pr => is_data pr = true) (props po) ->
  set_prop p k v h = Return () (<[p := with_props (insert k (Data v)) po]> h).
Proof.
  intros Hp Hproto Hdata. apply set_prop_return; [done |].
  intros g s. cbn [find_property]. rewrite Hp.
  destruct (props po !! k) as [pr|] eqn:Hk.
  - intros [= ->]. by apply Hdata in Hk.
  - rewrite Hproto. by destruct (size h).
Qed.

Lemma create_by_settings (o1 o2 : option (gmap string value)) (h : heap) :
  (forall k, setting k (resolve o1) = setting k (resolve o2)) ->
  create o1 h = create o2 h.
Proof.
  intros Hs. unfold create. cbv zeta.
  pose proof (Hs KVertex) as H1. pose proof (Hs KFragment) as H2.
  pose proof (Hs KVertexSize) as H3. pose proof (Hs KGeometryClass) as H4.
  cbn [setting] in H1, H2, H3, H4. by rewrite H1, H2, H3, H4.
Qed.

(** The heap [create] leaves, object by object. *)
Lemma create_heap (options : option (gmap string value)) (h : heap) :
  exists f p0 h' pv,
    create options h = Return f h'
    /\ h !! f = None /\ h !! p0 = None /\ f <> p0
    /\ is_plugin h' f (resolve options) pv
    /\ h' !! p0 = Some {| proto := VNull;
                          props := {[ "constructor" := Data (VRef f) ]};
                          slot := IsPlain |}
    /\ (forall l, l <> f -> l <> p0 -> h' !! l = h !! l)
    /\ (forall p, own h BaseBatchRenderer "prototype" = Some (Data (VRef p)) ->
                  pv = VRef p).
Proof.
  set (c := CBatchPlugin (cfg_vertex (resolve options))
                         (cfg_fragment (resolve options))
                         (cfg_vertexSize (resolve options))
                         (cfg_geometryClass (resolve options))).
  set (f := fresh (dom h)).
  set (F0 := {| proto := VNull; props := ∅; slot := IsFunction c |}).
  set (h1 := <[f := F0]> h).
  set (p0 := fresh (dom h1)).
  set (P0 := {| proto := VNull;
                props := {[ "constructor" := Data (VRef f) ]};
                slot := IsPlain |}).
  set (h2 := <[p0 := P0]> h1).
  set (F1 := with_props (insert "prototype" (Data (VRef p0))) F0).
  set (h3 := <[f := F1]> h2).
  assert (Hf : h !! f = None) by apply fresh_lookup.
  assert (Hp1 : h1 !! p0 = None) by apply fresh_lookup.
  unfold h1 in Hp1. apply lookup_insert_None in Hp1 as [Hp0 Hfp].
  assert (Hf2 : h2 !! f = Some F0).
  { unfold h2, h1. by rewrite lookup_insert_ne, lookup_insert_eq. }
  assert (Hdecl : declare_function c h = Return f h3).
  { unfold declare_function. rewrite !bind_alloc.
    fold f F0 h1 p0 P0 h2.
    by rewrite (bind_return _ _ h2 _ ()
                  (set_prop_return h2 f F0 "prototype" (VRef p0) Hf2
                     ltac:(by rewrite (find_property_end _ h2 f F0)))). }
  destruct (get_prop_ref h3 BaseBatchRenderer "prototype") as [pv Hpv].
  assert (Hf3 : h3 !! f = Some F1) by apply lookup_insert_eq.
  exists f, p0, (<[f := with_props (insert "prototype" (Data pv)) F1]> h3), pv.
  split.
  { unfold create. cbv zeta. fold c.
    rewrite (bind_return _ _ h h3 f Hdecl), (bind_return _ _ h3 h3 pv Hpv).
    by rewrite (bind_return _ _ h3 _ ()
                  (set_prop_return h3 f F1 "prototype" pv Hf3
                     ltac:(by erewrite find_property_own;
                             [| done | apply lookup_insert_eq]))). }
  split; [done |]. split; [done |]. split; [done |]. split; [|split; [|split]].
  - eexists. split; [apply lookup_insert_eq |]. simpl.
    split; [done |]. split; [apply lookup_insert_eq | done].
  - unfold h3, h2. by rewrite !lookup_insert_ne, lookup_insert_eq by done.
  - intros l Hlf Hlp. unfold h3, h2, h1. by rewrite !lookup_insert_ne by done.
  - intros p Hown.
    assert (own h3 BaseBatchRenderer "prototype" = Some (Data (VRef p))) as Hown3.
    { unfold own in *. destruct (h !! BaseBatchRenderer) eqn:E; [|done].
      assert (BaseBatchRenderer <> f) by congruence.
      assert (BaseBatchRenderer <> p0) by congruence.
      unfold h3, h2, h1. by rewrite !lookup_insert_ne, E by done. }
    rewrite (get_prop_own _ _ _ _ Hown3) in Hpv. congruence.
Qed.

(** Two constructors and an instance of the second, with the objects
    the later steps read. *)
Lemma two_plugins_one_instance (c1 c2 : option (gmap string value))
      (h : heap) (p r : loc) (d : Engine.Device) :
  loaded h p -> is_device h r d ->
  accepts_template (cfg_fragment (resolve c2)) = true ->
  exists f1 h1 f2 h2 i2 sg h3 po,
    create c1 h = Return f1 h1
    /\ create c2 h1 = Return f2 h2
    /\ construct f2 (VRef r) h2 = Return i2 h3
    /\ is_plugin h3 f1 (resolve c1) (VRef p)
    /\ h3 !! i2
       = Some {| proto := VRef p;
                 props := instance_props (VRef r) (resolve c2) sg;
                 slot := IsEngine (Engine.init d) |}
    /\ h3 !! sg
       = Some {| proto := VNull; props := ∅;
                 slot := IsShaderGenerator (cfg_vertex (resolve c2))
                                           (cfg_fragment (resolve c2)) |}
    /\ h3 !! p = Some po /\ proto po = VNull
    /\ map_Forall (fun _ pr => is_data pr = true) (props po)
    /\ i2 <> p /\ sg <> p.
Proof.
  intros Hl Hd Hacc.
  destruct (create_twice c1 c2 h p Hl)
    as (f1 & h1 & f2 & h2 & Hc1 & Hc2 & _ & Hext1 & Hext2 & Hp1 & Hp2).
  pose proof (extends_trans _ _ _ Hext1 Hext2) as Hext.
  destruct (construct_returns f2 p r (resolve c2) d h2
              (loaded_extends _ _ _ Hl Hext) Hp2
              (is_device_extends _ _ _ _ Hd Hext) Hacc)
    as (i2 & sg & h3 & Hn & Hi2 & Hsg & Hext3 & Ht & Hg).
  destruct Hl as [_ (po & Hpo & Hproto & Hdata)].
  assert (Hpo2 : h2 !! p = Some po) by (by rewrite Hext by eauto).
  exists f1, h1, f2, h2, i2, sg, h3, po.
  split; [done |]. split; [done |]. split; [done |].
  split; [by apply (is_plugin_extends h2) |].
  split; [done |]. split; [done |].
  split; [by rewrite Hext3 by eauto |].
  split; [done |]. split; [done |]. split; congruence.
Qed.

(** X1. [create] returns on every heap and for every options value, and
    changes no object that was there before. Besides the constructor it
    leaves the object that the function declaration gave the function as
    its first [prototype]: that object still names the constructor as its
    [constructor], but once the imported classes are loaded the
    constructor's [prototype] is the base prototype and not that object. *)
Theorem create_leaves_existing_objects
        (options : option (gmap string value)) (h : heap) :
  exists f p0 h',
    create options h = Return f h'
    /\ f <> p0 /\ h !! f = None /\ h !! p0 = None
    /\ extends h h'
    /\ own h' p0 "constructor" = Some (Data (VRef f))
    /\ forall p, loaded h p -> prototype_of h' f = Some (VRef p) /\ p <> p0.
Proof.
  destruct (create_heap options h)
    as (f & p0 & h' & pv & Hc & Hf & Hp0 & Hne & Hplug & Hp0' & Hrest & Hpv).
  exists f, p0, h'. split; [done |]. split; [done |]. split; [done |].
  split; [done |]. split; [|split].
  - intros l [o Ho]. apply Hrest; congruence.
  - unfold own. by rewrite Hp0'.
  - intros p Hl. rewrite (Hpv p (loaded_base h p Hl)) in Hplug.
    split; [by apply (prototype_of_plugin _ _ _ _ Hplug) |].
    destruct Hl as [_ (po & Hpo & _)]. congruence.
Qed.

(** X2. The constructor depends on the options through the keys
    [vertex], [fragment], [vertexSize] and [geometryClass] alone: two
    options values that agree on these four keys, one of them possibly
    [undefined] or carrying other keys, make [create] do the same. *)
Theorem create_reads_only_its_four_keys
        (o1 o2 : option (gmap string value)) (h : heap) :
  (forall k, given o1 k = given o2 k) -> create o1 h = create o2 h.
Proof.
  intros Hg. apply create_by_settings. intros k.
  by rewrite !resolve_setting, Hg.
Qed.

(** X3. What the two getters of the class return can be passed back as
    the options [vertex] and [fragment]: [create] then does what it does
    without options. *)
Theorem default_getters_round_trip (h : heap) :
  exists cls br h1 v fr,
    load_module h = Return (cls, br) h1
    /\ get_prop (VRef cls) "defaultVertexSrc" h1 = Return v h1
    /\ get_prop (VRef cls) "defaultFragmentTemplate" h1 = Return fr h1
    /\ forall h', create (Some {[ "vertex" := v; "fragment" := fr ]}) h'
                  = create None h'.
Proof.
  destruct (load_module_returns h)
    as (cls & br & h0 & h1 & clso & pv & Hload & _ & _ & _ & Hcls & _
        & Hv & Hf & _).
  exists cls, br, h1, (VStr defaultVertex), (VStr defaultFragment).
  split; [done |].
  split; [unfold get_prop;
          by rewrite (find_property_own _ h1 cls clso _ _ Hcls Hv) |].
  split; [unfold get_prop;
          by rewrite (find_property_own _ h1 cls clso _ _ Hcls Hf) |].
  intros h'. apply create_by_settings. intros k.
  rewrite !resolve_setting. by destruct k.
Qed.

(** X4. An instance inherits from the base prototype: a data property of
    [BaseBatchRenderer.prototype] is read from the instance with the value
    the base prototype has, when its name is none of the three fields the
    plugin constructor assigns and none of the fields the base constructor
    gives the instance. The constructor itself is a new object, so a
    [constructor] property of the base prototype that names the base class
    does not name the plugin. *)
Theorem instances_inherit_base_prototype
        (options : option (gmap string value))
        (h : heap) (p r : loc) (d : Engine.Device) (k : string) (x : value) :
  loaded h p -> is_device h r d ->
  accepts_template (cfg_fragment (resolve options)) = true ->
  own h p k = Some (Data x) ->
  k <> "shaderGenerator" -> k <> "geometryClass" -> k <> "vertexSize" ->
  base_fields (VRef r) !! k = None ->
  exists f h1 this h2,
    create options h = Return f h1
    /\ construct f (VRef r) h1 = Return this h2
    /\ get_prop (VRef this) k h2 = Return x h2
    /\ f <> BaseBatchRenderer.
Proof.
  intros Hl Hd Hacc Hown Hk1 Hk2 Hk3 Hb.
  destruct (create_and_construct options h p r d Hl Hd)
    as (f & h1 & Hc & Hf & Hext & _ & Hyes & _).
  destruct (Hyes Hacc) as (this & sg & h2 & Hn & _ & _ & Hext2 & Ht & _).
  exists f, h1, this, h2. split; [done |]. split; [done |]. split.
  - unfold own in Hown. destruct (h !! p) as [po|] eqn:Hpo; [|done].
    simpl in Hown.
    apply (get_prop_inherited h2 this p _ po k x Ht); try done.
    + by apply lookup_other_field.
    + rewrite (extends_trans _ _ _ Hext Hext2) by eauto. done.
  - intros ->. pose proof (loaded_base h p Hl) as Hbase. unfold own in Hbase.
    by rewrite Hf in Hbase.
Qed.

(** X5. The constructors share one prototype object, so a property
    written through the [prototype] of one constructor is read from the
    instances of another, when its name is none of the fields an instance
    has of its own (the three of the plugin constructor and those of the
    base constructor) and is not [__proto__], which is no ordinary
    property. *)
Theorem prototype_write_reaches_other_plugins
        (c1 c2 : option (gmap string value))
        (h : heap) (p r : loc) (d : Engine.Device) (k : string) (v : value) :
  loaded h p -> is_device h r d ->
  accepts_template (cfg_fragment (resolve c2)) = true ->
  k <> "shaderGenerator" -> k <> "geometryClass" -> k <> "vertexSize" ->
  k <> "__proto__" ->
  base_fields (VRef r) !! k = None ->
  exists f1 h1 f2 h2 i2 h3 h4,
    create c1 h = Return f1 h1
    /\ create c2 h1 = Return f2 h2
    /\ construct f2 (VRef r) h2 = Return i2 h3
    /\ get_prop (VRef f1) "prototype" h3 = Return (VRef p) h3
    /\ set_prop p k v h3 = Return () h4
    /\ get_prop (VRef i2) k h4 = Return v h4.
Proof.
  intros Hl Hd Hacc Hk1 Hk2 Hk3 _ Hb.
  destruct (two_plugins_one_instance c1 c2 h p r d Hl Hd Hacc)
    as (f1 & h1 & f2 & h2 & i2 & sg & h3 & po & Hc1 & Hc2 & Hn & Hp1 & Ht & Hg
        & Hpo & Hproto & Hdata & Hip & Hsp).
  exists f1, h1, f2, h2, i2, h3. eexists.
  split; [done |]. split; [done |]. split; [done |]. split; [|split].
  - apply get_prop_own. destruct Hp1 as (fo & Hfo & _ & Hpr & _).
    unfold own. by rewrite Hfo.
  - by apply (set_prop_plain h3 p po).
  - eapply (get_prop_inherited _ i2 p).
    + by rewrite lookup_insert_ne.
    + by apply lookup_other_field.
    + done.
    + apply lookup_insert_eq.
    + apply lookup_insert_eq.
Qed.

(** X6. The three fields of an instance are its own properties and
    shadow the shared prototype: whatever is written to the prototype,
    under any ordinary property name, the instance keeps the
    configuration of its constructor and reads its own [vertexSize] and
    [geometryClass]. *)
Theorem own_fields_shadow_prototype_writes
        (c1 c2 : option (gmap string value))
        (h : heap) (p r : loc) (d : Engine.Device) (k : string) (v : value) :
  loaded h p -> is_device h r d ->
  accepts_template (cfg_fragment (resolve c2)) = true ->
  k <> "__proto__" ->
  exists f1 h1 f2 h2 i2 h3 h4,
    create c1 h = Return f1 h1
    /\ create c2 h1 = Return f2 h2
    /\ construct f2 (VRef r) h2 = Return i2 h3
    /\ set_prop p k v h3 = Return () h4
    /\ instance_config h4 i2 = Some (resolve c2)
    /\ get_prop (VRef i2) "vertexSize" h4
       = Return (cfg_vertexSize (resolve c2)) h4
    /\ get_prop (VRef i2) "geometryClass" h4
       = Return (cfg_geometryClass (resolve c2)) h4.
Proof.
  intros Hl Hd Hacc _.
  destruct (two_plugins_one_instance c1 c2 h p r d Hl Hd Hacc)
    as (f1 & h1 & f2 & h2 & i2 & sg & h3 & po & Hc1 & Hc2 & Hn & Hp1 & Ht & Hg
        & Hpo & Hproto & Hdata & Hip & Hsp).
  set (h4 := <[p := with_props (insert k (Data v)) po]> h3).
  assert (Ht4 : h4 !! i2 = h3 !! i2) by (unfold h4; by rewrite lookup_insert_ne).
  assert (Hg4 : h4 !! sg = h3 !! sg) by (unfold h4; by rewrite lookup_insert_ne).
  rewrite <- Ht4 in Ht. rewrite <- Hg4 in Hg.
  destruct (instance_facts h4 i2 sg p _ (resolve c2) d Ht Hg)
    as (Hcfg & _ & _ & Hvs & Hgc & _).
  exists f1, h1, f2, h2, i2, h3, h4.
  split; [done |]. split; [done |]. split; [done |].
  split; [by apply (set_prop_plain h3 p po) |]. split; [done |].
  split; by apply get_prop_own.
Qed.

(** X8. The fields of an instance are ordinary writable properties, and a
    write to one stays on that instance: after [i1.vertexSize = v] the
    instance reads [v], the constructor still closes over its
    configuration, and the next instance it makes carries that
    configuration. *)
Theorem field_override_is_local
        (options : option (gmap string value))
        (h : heap) (p r : loc) (d : Engine.Device) (v : value) :
  loaded h p -> is_device h r d ->
  accepts_template (cfg_fragment (resolve options)) = true ->
  exists f h1 i1 h2 h3 i2 h4,
    create options h = Return f h1
    /\ construct f (VRef r) h1 = Return i1 h2
    /\ set_prop i1 "vertexSize" v h2 = Return () h3
    /\ construct f (VRef r) h3 = Return i2 h4
    /\ get_prop (VRef i1) "vertexSize" h4 = Return v h4
    /\ closure_config h4 f = Some (resolve options)
    /\ instance_config h4 i2 = Some (resolve options).
Proof.
  intros Hl Hd Hacc.
  destruct (create_returns options h)
    as (f & h1 & pv & Hc & Hf & Hext & Hplug & Hpv & _).
  rewrite (Hpv p (loaded_base h p Hl)) in Hplug.
  pose proof (loaded_extends _ _ _ Hl Hext) as Hl1.
  pose proof (is_device_extends _ _ _ _ Hd Hext) as Hd1.
  destruct (construct_returns f p r (resolve options) d h1 Hl1 Hplug Hd1 Hacc)
    as (i1 & sg1 & h2 & Hn1 & Hi1 & Hs1 & Hext2 & Ht1 & Hg1).
  set (T := {| proto := VRef p; props := _; slot := _ |}) in Ht1.
  set (h3 := <[i1 := with_props (insert "vertexSize" (Data v)) T]> h2).
  assert (Hset : set_prop i1 "vertexSize" v h2 = Return () h3).
  { apply set_prop_return; [done |]. intros g s.
    rewrite (find_property_own _ h2 i1 T "vertexSize"
               (Data (cfg_vertexSize (resolve options)))); [done | done |].
    unfold T. cbn [props]. unfold instance_props. apply lookup_insert_eq. }
  assert (Hext3 : extends h1 h3) by (by apply extends_insert_fresh).
  destruct (construct_returns f p r (resolve options) d h3
              (loaded_extends _ _ _ Hl1 Hext3)
              (is_plugin_extends _ _ _ _ _ Hplug Hext3)
              (is_device_extends _ _ _ _ Hd1 Hext3) Hacc)
    as (i2 & sg2 & h4 & Hn2 & Hi2 & Hs2 & Hext4 & Ht2 & Hg2).
  destruct (instance_facts h4 i2 sg2 p _ (resolve options) d Ht2 Hg2)
    as (Hcfg & _).
  exists f, h1, i1, h2, h3, i2, h4.
  split; [done |]. split; [done |]. split; [done |]. split; [done |].
  split; [|split; [|done]].
  - apply get_prop_own. unfold own.
    rewrite Hext4 by (unfold h3; rewrite lookup_insert_eq; eauto).
    unfold h3. rewrite lookup_insert_eq.
    cbn [fmap option_fmap option_map with_props props mbind option_bind].
    apply lookup_insert_eq.
  - apply (closure_config_plugin _ _ _ (VRef p)).
    apply (is_plugin_extends h3); [|done].
    by apply (is_plugin_extends h1).
Qed.

End WithImports.

(** *** The theorems at the sample setting *)

Lemma create_leaves_existing_objects_witness :
  exists f p0 h',
    @create sample_imports None sample_heap = Return f h'
    /\ f <> p0
    /\ extends sample_heap h'
    /\ own h' p0 "constructor" = Some (Data (VRef f))
    /\ prototype_of h' f = Some (VRef 1) /\ 1 <> p0.
Proof.
  destruct (@create_leaves_existing_objects sample_imports None sample_heap)
    as (f & p0 & h' & Hc & Hne & _ & _ & Hext & Hown & Hp).
  exists f, p0, h'. split; [exact Hc |]. split; [exact Hne |].
  split; [exact Hext |]. split; [exact Hown |]. exact (Hp 1 sample_loaded).
Defined.

Lemma create_reads_only_its_four_keys_witness :
  @create sample_imports
          (Some {[ "vertexSize" := VNum 8; "antialias" := VBool true ]})
          sample_heap
  = @create sample_imports (Some {[ "vertexSize" := VNum 8 ]}) sample_heap.
Proof.
  apply (@create_reads_only_its_four_keys sample_imports).
  intros k. destruct k; reflexivity.
Defined.

Lemma default_getters_round_trip_witness :
  exists cls br h1 v fr,
    @load_module sample_imports sample_heap = Return (cls, br) h1
    /\ @get_prop sample_imports (VRef cls) "defaultVertexSrc" h1 = Return v h1
    /\ @get_prop sample_imports (VRef cls) "defaultFragmentTemplate" h1
       = Return fr h1
    /\ @create sample_imports (Some {[ "vertex" := v; "fragment" := fr ]})
               sample_heap
       = @create sample_imports None sample_heap.
Proof.
  destruct (@default_getters_round_trip sample_imports sample_heap)
    as (cls & br & h1 & v & fr & Hload & Hv & Hf & Hc).
  exists cls, br, h1, v, fr. split; [exact Hload |]. split; [exact Hv |].
  split; [exact Hf | exact (Hc sample_heap)].
Defined.

Lemma instances_inherit_base_prototype_witness :
  exists f h1 this h2,
    @create sample_imports None sample_heap = Return f h1
    /\ @construct sample_imports f (VRef 3) h1 = Return this h2
    /\ @get_prop sample_imports (VRef this) "constructor" h2
       = Return (VRef 0) h2
    /\ f <> 0.
Proof.
  assert (Hk : own sample_heap 1 "constructor" = Some (Data (VRef 0)))
    by reflexivity.
  assert (Hb : @base_fields sample_imports (VRef 3) !! "constructor" = None)
    by reflexivity.
  destruct (@instances_inherit_base_prototype sample_imports None
              sample_heap 1 3 sample_device "constructor" (VRef 0)
              sample_loaded eq_refl eq_refl Hk
              ltac:(discriminate) ltac:(discriminate) ltac:(discriminate) Hb)
    as (f & h1 & this & h2 & Hc & Hn & Hget & Hne).
  exists f, h1, this, h2. split; [exact Hc |]. split; [exact Hn |].
  split; [exact Hget | exact Hne].
Defined.

Lemma prototype_write_reaches_other_plugins_witness :
  exists f1 h1 f2 h2 i2 h3 h4,
    @create sample_imports None sample_heap = Return f1 h1
    /\ @create sample_imports
               (Some {[ "fragment" := VStr invert_fragment ]}) h1
       = Return f2 h2
    /\ @construct sample_imports f2 (VRef 3) h2 = Return i2 h3
    /\ @get_prop sample_imports (VRef f1) "prototype" h3 = Return (VRef 1) h3
    /\ set_prop 1 "debug" (VBool true) h3 = Return () h4
    /\ @get_prop sample_imports (VRef i2) "debug" h4 = Return (VBool true) h4.
Proof.
  assert (Hacc : accepts_template
                   (cfg_fragment
                      (@resolve sample_imports
                         (Some {[ "fragment" := VStr invert_fragment ]})))
                 = true)
    by (vm_compute; reflexivity).
  assert (Hb : @base_fields sample_imports (VRef 3) !! "debug" = None)
    by reflexivity.
  destruct (@prototype_write_reaches_other_plugins sample_imports None
              (Some {[ "fragment" := VStr invert_fragment ]})
              sample_heap 1 3 sample_device "debug" (VBool true)
              sample_loaded eq_refl Hacc
              ltac:(discriminate) ltac:(discriminate) ltac:(discriminate)
              ltac:(discriminate) Hb)
    as (f1 & h1 & f2 & h2 & i2 & h3 & h4 & Hc1 & Hc2 & Hn & Hp & Hs & Hg).
  exists f1, h1, f2, h2, i2, h3, h4.
  split; [exact Hc1 |]. split; [exact Hc2 |]. split; [exact Hn |].
  split; [exact Hp |]. split; [exact Hs | exact Hg].
Defined.

Lemma own_fields_shadow_prototype_writes_witness :
  exists f1 h1 f2 h2 i2 h3 h4,
    @create sample_imports None sample_heap = Return f1 h1
    /\ @create sample_imports (Some {[ "vertexSize" := VNum 8 ]}) h1
       = Return f2 h2
    /\ @construct sample_imports f2 (VRef 3) h2 = Return i2 h3
    /\ set_prop 1 "vertexSize" (VNum 99) h3 = Return () h4
    /\ @get_prop sample_imports (VRef i2) "vertexSize" h4 = Return (VNum 8) h4.
Proof.
  assert (Hacc : accepts_template
                   (cfg_fragment
                      (@resolve sample_imports
                         (Some {[ "vertexSize" := VNum 8 ]}))) = true)
    by (vm_compute; reflexivity).
  destruct (@own_fields_shadow_prototype_writes sample_imports None
              (Some {[ "vertexSize" := VNum 8 ]})
              sample_heap 1 3 sample_device "vertexSize" (VNum 99)
              sample_loaded eq_refl Hacc ltac:(discriminate))
    as (f1 & h1 & f2 & h2 & i2 & h3 & h4 & Hc1 & Hc2 & Hn & Hs & _ & Hvs & _).
  exists f1, h1, f2, h2, i2, h3, h4.
  split; [exact Hc1 |]. split; [exact Hc2 |]. split; [exact Hn |].
  split; [exact Hs | exact Hvs].
Defined.

Lemma field_override_is_local_witness :
  exists f h1 i1 h2 h3 i2 h4,
    @create sample_imports None sample_heap = Return f h1
    /\ @construct sample_imports f (VRef 3) h1 = Return i1 h2
    /\ set_prop i1 "vertexSize" (VNum 10) h2 = Return () h3
    /\ @construct sample_imports f (VRef 3) h3 = Return i2 h4
    /\ @get_prop sample_imports (VRef i1) "vertexSize" h4 = Return (VNum 10) h4
    /\ instance_config h4 i2 = Some (@default_config sample_imports).
Proof.
  destruct (@field_override_is_local sample_imports None
              sample_heap 1 3 sample_device (VNum 10) sample_loaded eq_refl
              eq_refl)
    as (f & h1 & i1 & h2 & h3 & i2 & h4 & Hc & Hn1 & Hs & Hn2 & Hg & _ & Hcfg).
  exists f, h1, i1, h2, h3, i2, h4.
  split; [exact Hc |]. split; [exact Hn1 |]. split; [exact Hs |].
  split; [exact Hn2 |]. split; [exact Hg | exact Hcfg].
Defined.

End FactoryUse.
